(** * Vector Drawing Program: buffer bookkeeping, run ledger, rendering and snapshots

    A shallow embedding of [vector-drawing.js].  The global [gl] object and
    the global [drawingHistory] array become one explicit [state] that every
    event handler takes and returns.

    Modelling conventions.
    - JavaScript numbers that hold coordinates and colours are [number]s:
      a finite value is an exact rational, and [PosInf], [NegInf] and [NaN]
      are the three non-finite values.  The conversion to binary32 that
      [Float32Array.from] makes is [toFloat32]: round to nearest, ties to
      even, with subnormals and overflow to infinity.  The rounding to
      binary64 of the arithmetic before it and the sign of zero are not
      represented; module [Binary64] evaluates the coordinate conversion
      with both roundings and is compared with the model on every pixel of
      a canvas.
    - Byte offsets, run lengths and vertex indices are integers ([Z]).
    - A WebGL buffer is the list of 32-bit floats of its data store; its
      byte size is four times the length of that list.
    - [JSON.stringify] and [JSON.parse] are taken at the level of JSON
      values ([jsonEntry]), not of the text between them.  A file is a JSON
      array whose entries are run records [{mode, vertLength}] or objects
      of indexed numbers, which is what [JSON.stringify] makes of a
      Float32Array.
    - The WebGL calls follow the WebGL 2 specification: [bufferSubData] and
      [getBufferSubData] past the end of a buffer raise INVALID_VALUE, which
      is no exception, and transfer nothing.
    - [hexToRgb] works on strings of code units below 256; the events of a
      session carry the three numbers it returns.
    - Shaders, the viewport and the prompt for a file name are left out. *)

From Stdlib Require Import String ZArith QArith Qabs Bool Lia List SpecFloat.
From Stdlib Require Import Ascii Lqa.
Import ListNotations.
Open Scope Z_scope.

(** ** Numbers *)

Inductive number : Type :=
  | Fin (q : Q)
  | PosInf
  | NegInf
  | NaN.

(** [a / b] on numbers; the divisor zero is the positive zero. *)
Definition number_div (a b : number) : number :=
  match a, b with
  | NaN, _ | _, NaN => NaN
  | Fin x, Fin y =>
      if Qeq_bool y 0 then
        match Qcompare x 0 with
        | Eq => NaN
        | Gt => PosInf
        | Lt => NegInf
        end
      else Fin (x / y)
  | Fin _, (PosInf | NegInf) => Fin 0
  | PosInf, Fin y => if Qle_bool 0 y then PosInf else NegInf
  | NegInf, Fin y => if Qle_bool 0 y then NegInf else PosInf
  | (PosInf | NegInf), (PosInf | NegInf) => NaN
  end.

(** [a - b] on numbers. *)
Definition number_sub (a b : number) : number :=
  match a, b with
  | NaN, _ | _, NaN => NaN
  | Fin x, Fin y => Fin (x - y)
  | Fin _, PosInf => NegInf
  | Fin _, NegInf => PosInf
  | PosInf, (Fin _ | NegInf) => PosInf
  | NegInf, (Fin _ | PosInf) => NegInf
  | PosInf, PosInf | NegInf, NegInf => NaN
  end.

Definition isFinite (a : number) : bool :=
  match a with
  | Fin _ => true
  | _ => false
  end.

(** Equality of numbers up to the representation of the rational. *)
Definition number_eq (a b : number) : Prop :=
  match a, b with
  | Fin x, Fin y => (x == y)%Q
  | PosInf, PosInf | NegInf, NegInf | NaN, NaN => True
  | _, _ => False
  end.

(** *** The conversion to binary32 *)

(** [n / d] rounded to the nearest integer, a tie going to the even one
    ([0 <= n], [0 < d]). *)
Definition roundHalfEven (n d : Z) : Z :=
  let q := n / d in
  match 2 * (n mod d) ?= d with
  | Lt => q
  | Gt => q + 1
  | Eq => if Z.even q then q else q + 1
  end.

(** The binary32 number nearest to [a / d], in units of 2^-149, the least
    positive binary32 number.  [E] is the exponent of the unit in the last
    place above 2^-149: 0 up to 24 bits, then the number of bits of
    [a * 2^149 / d] beyond 24. *)
Definition nearestFloat32 (a d : Z) : Z :=
  let A := a * 2 ^ 149 in
  let E := Z.max 0 (Z.log2 (A / d) - 23) in
  roundHalfEven A (d * 2 ^ E) * 2 ^ E.

(** The element of a Float32Array made from a number: the nearest binary32
    number, an infinity from 2^128 on (that is from 2^277 units). *)
Definition toFloat32 (x : number) : number :=
  match x with
  | Fin q =>
      let n := Qnum (Qred q) in
      let V := nearestFloat32 (Z.abs n) (Zpos (Qden (Qred q))) in
      if 2 ^ 277 <=? V
      then (if n <? 0 then NegInf else PosInf)
      else Fin (Qred (Qmake (Z.sgn n * V) (2 ^ 149)))
  | _ => x
  end.

(** [Float32Array.from] on an array of numbers. *)
Definition Float32Array_from_numbers (data : list number) : list number :=
  map toFloat32 data.

(** ** Entries of [drawingHistory] and JSON documents *)

(** What an element of the global array [drawingHistory] can be. *)
Inductive entry : Type :=
  | Run (mode : string) (vertLength : Z)
      (* the object {mode: ..., vertLength: ...} *)
  | F32 (data : list number)
      (* a Float32Array, as pushed by downloadDrawing *)
  | Seq (values : list (option Q)).
      (* a parsed object {"0": v0, "1": v1, ...}; None is null *)

(** The JSON value of one entry of a saved file. *)
Inductive jsonEntry : Type :=
  | JRun (mode : string) (vertLength : Z)
  | JSeq (values : list (option Q)).

(** A value read out of an object by [Object.values]. *)
Inductive jsValue : Type :=
  | VNumber (x : number)
  | VNull
  | VString (s : string).

(** [drawingMode.mode]: [None] is [undefined]. *)
Definition entry_mode (e : entry) : option string :=
  match e with
  | Run m _ => Some m
  | F32 _ | Seq _ => None
  end.

(** [drawingMode.vertLength]: [None] is [undefined]. *)
Definition entry_vertLength (e : entry) : option Z :=
  match e with
  | Run _ n => Some n
  | F32 _ | Seq _ => None
  end.

Definition isRun (e : entry) : bool :=
  match e with
  | Run _ _ => true
  | _ => false
  end.

(** ** The WebGL context and the program state *)

Definition MAX_VERTICES : Z := 100000.
Definition BYTES_PER_ELEMENT : Z := 4.

Inductive bufferName : Type := PosBuffer | ColorBuffer.

(** The global [gl]: the properties the program adds to the context, the
    data stores of its two buffers and the two bindings it changes. *)
Record WebGLContext : Type := mkGL {
  currentCoordByteOffset : Z;
  currentColorByteOffset : Z;
  posBuffer : list number;
  colorBuffer : list number;
  arrayBufferBinding : option bufferName;
  vertexArrayBinding : bool;          (* true: gl.vectorsVAO, false: null *)
  drawingMode : string;
  drawingColor : number * number * number
}.

Record state : Type := mkState {
  gl : WebGLContext;
  drawingHistory : list entry
}.

(** A command that reaches the drawing surface.  In [DrawArrays] the mode is
    the property name looked up on [gl] ([None]: [gl[undefined]]), [first]
    is [None] when the running index is NaN and [count] is [None] when the
    entry has no [vertLength]. *)
Inductive glCall : Type :=
  | Clear
  | DrawArrays (mode : option string) (first : option Z) (count : option Z).

Module GL.

Definition bindBuffer (b : option bufferName) (g : WebGLContext) : WebGLContext :=
  mkGL (currentCoordByteOffset g) (currentColorByteOffset g)
       (posBuffer g) (colorBuffer g) b (vertexArrayBinding g)
       (drawingMode g) (drawingColor g).

Definition bindVertexArray (v : bool) (g : WebGLContext) : WebGLContext :=
  mkGL (currentCoordByteOffset g) (currentColorByteOffset g)
       (posBuffer g) (colorBuffer g) (arrayBufferBinding g) v
       (drawingMode g) (drawingColor g).

(** Writing [src] into a data store at a byte offset.  A write that does
    not fit is refused with INVALID_VALUE and leaves the store as it was.
    The offsets of this program are sums of multiples of 4, so an offset
    falls on an element of the store. *)
Definition writeStore (store : list number) (dstByteOffset : Z)
           (src : list number) : list number :=
  if (dstByteOffset <? 0)
     || (BYTES_PER_ELEMENT * Z.of_nat (length store)
         <? dstByteOffset + BYTES_PER_ELEMENT * Z.of_nat (length src))
  then store
  else
    let first := Z.to_nat (dstByteOffset / BYTES_PER_ELEMENT) in
    firstn first store ++ src ++ skipn (first + length src) store.

(** Reading a data store from byte 0 into [dst].  A read longer than the
    store is refused with INVALID_VALUE and leaves [dst] as it was. *)
Definition readStore (store dst : list number) : list number :=
  if BYTES_PER_ELEMENT * Z.of_nat (length store)
     <? BYTES_PER_ELEMENT * Z.of_nat (length dst)
  then dst
  else firstn (length dst) store.

(** [gl.bufferSubData(gl.ARRAY_BUFFER, dstByteOffset, src)]: acts on the
    buffer bound to ARRAY_BUFFER; with none bound nothing is written. *)
Definition bufferSubData (dstByteOffset : Z) (src : list number)
           (g : WebGLContext) : WebGLContext :=
  match arrayBufferBinding g with
  | Some PosBuffer =>
      mkGL (currentCoordByteOffset g) (currentColorByteOffset g)
           (writeStore (posBuffer g) dstByteOffset src) (colorBuffer g)
           (arrayBufferBinding g) (vertexArrayBinding g)
           (drawingMode g) (drawingColor g)
  | Some ColorBuffer =>
      mkGL (currentCoordByteOffset g) (currentColorByteOffset g)
           (posBuffer g) (writeStore (colorBuffer g) dstByteOffset src)
           (arrayBufferBinding g) (vertexArrayBinding g)
           (drawingMode g) (drawingColor g)
  | None => g
  end.

(** [gl.getBufferSubData(gl.ARRAY_BUFFER, 0, dst)]: the new content of
    [dst]. *)
Definition getBufferSubData (dst : list number) (g : WebGLContext) : list number :=
  match arrayBufferBinding g with
  | Some PosBuffer => readStore (posBuffer g) dst
  | Some ColorBuffer => readStore (colorBuffer g) dst
  | None => dst
  end.

End GL.

Definition set_currentCoordByteOffset (v : Z) (g : WebGLContext) : WebGLContext :=
  mkGL v (currentColorByteOffset g) (posBuffer g) (colorBuffer g)
       (arrayBufferBinding g) (vertexArrayBinding g)
       (drawingMode g) (drawingColor g).

Definition set_currentColorByteOffset (v : Z) (g : WebGLContext) : WebGLContext :=
  mkGL (currentCoordByteOffset g) v (posBuffer g) (colorBuffer g)
       (arrayBufferBinding g) (vertexArrayBinding g)
       (drawingMode g) (drawingColor g).

Definition set_drawingMode (m : string) (g : WebGLContext) : WebGLContext :=
  mkGL (currentCoordByteOffset g) (currentColorByteOffset g)
       (posBuffer g) (colorBuffer g)
       (arrayBufferBinding g) (vertexArrayBinding g) m (drawingColor g).

Definition set_drawingColor (c : number * number * number)
           (g : WebGLContext) : WebGLContext :=
  mkGL (currentCoordByteOffset g) (currentColorByteOffset g)
       (posBuffer g) (colorBuffer g)
       (arrayBufferBinding g) (vertexArrayBinding g) (drawingMode g) c.

(** [new Float32Array(n)]: [n] zeros. *)
Definition Float32Array_new (n : Z) : list number :=
  repeat (Fin 0) (Z.to_nat n).

(** ** [init]: offsets at zero, the two buffers allocated, the mode and the
    colour read from the two inputs of the page *)

Definition initBuffers (g : WebGLContext) : WebGLContext :=
  mkGL (currentCoordByteOffset g) (currentColorByteOffset g)
       (Float32Array_new (MAX_VERTICES * 2))
       (Float32Array_new (MAX_VERTICES * 3))
       None false (drawingMode g) (drawingColor g).

Definition init (mode : string) (color : number * number * number) : state :=
  mkState (initBuffers (mkGL 0 0 [] [] None false mode color)) [].

(** ** [render] *)

(** [startingIndexPerMode += drawingMode.vertLength]: the sum is NaN as soon
    as the index is NaN or the entry has no [vertLength]. *)
Definition addLength (start : option Z) (len : option Z) : option Z :=
  match start, len with
  | Some a, Some n => Some (a + n)
  | _, _ => None
  end.

(** The [forEach] of [render]: the calls it makes, in order, and the final
    value of [startingIndexPerMode]. *)
Fixpoint drawEach (history : list entry) (startingIndexPerMode : option Z)
  : list glCall * option Z :=
  match history with
  | [] => ([], startingIndexPerMode)
  | e :: rest =>
      let call := DrawArrays (entry_mode e) startingIndexPerMode
                             (entry_vertLength e) in
      let '(calls, final) :=
        drawEach rest (addLength startingIndexPerMode (entry_vertLength e)) in
      (call :: calls, final)
  end.

Definition render (s : state) : state * list glCall :=
  let g1 := GL.bindVertexArray true (gl s) in
  let calls := fst (drawEach (drawingHistory s) (Some 0)) in
  let g2 := GL.bindVertexArray false g1 in
  (mkState g2 (drawingHistory s), Clear :: calls).

(** ** [addVertex] *)

Record MouseEvent : Type := mkClick { offsetX : Q; offsetY : Q }.
Record Canvas : Type := mkCanvas { offsetWidth : Z; offsetHeight : Z }.

(** [[(2 * x) / w - 1, 1 - (2 * y) / h]] *)
Definition clipCoordinates (x y : Q) (w h : Z) : list number :=
  [ number_sub (number_div (Fin (2 * x)) (Fin (inject_Z w))) (Fin 1);
    number_sub (Fin 1) (number_div (Fin (2 * y)) (Fin (inject_Z h))) ].

Fixpoint lastEntry (history : list entry) : option entry :=
  match history with
  | [] => None
  | [e] => Some e
  | _ :: rest => lastEntry rest
  end.

(** [gl.drawingMode !== x] for [x] a mode or [undefined]. *)
Definition strictNotEqual (m : string) (x : option string) : bool :=
  match x with
  | Some m' => negb (String.eqb m m')
  | None => true
  end.

(** [drawingHistory.length === 0 ||
     gl.drawingMode !== drawingHistory[drawingHistory.length - 1].mode] *)
Definition startsNewRun (m : string) (history : list entry) : bool :=
  match lastEntry history with
  | None => true
  | Some e => strictNotEqual m (entry_mode e)
  end.

(** [drawingHistory[drawingHistory.length - 1].vertLength += 1].  The guard
    before it makes the last entry a run record, so the other entries are
    returned as they are. *)
Fixpoint incrementLast (history : list entry) : list entry :=
  match history with
  | [] => []
  | [Run m n] => [Run m (n + 1)]
  | e :: rest => e :: incrementLast rest
  end.

(** The three elements of the array [gl.drawingColor]. *)
Definition colorComponents (c : number * number * number) : list number :=
  let '(r, g, b) := c in [r; g; b].

Definition addVertex (this : Canvas) (e : MouseEvent) (s : state)
  : state * list glCall :=
  let '(x, y, w, h) := (offsetX e, offsetY e, offsetWidth this, offsetHeight this) in
  let xy := clipCoordinates x y w h in
  let g := gl s in
  let history :=
    if startsNewRun (drawingMode g) (drawingHistory s)
    then drawingHistory s ++ [Run (drawingMode g) 0]
    else drawingHistory s in
  let history := incrementLast history in
  let g := GL.bindBuffer (Some PosBuffer) g in
  let g := GL.bufferSubData (currentCoordByteOffset g)
                             (Float32Array_from_numbers xy) g in
  let g := GL.bindBuffer (Some ColorBuffer) g in
  let g := GL.bufferSubData
             (currentColorByteOffset g)
             (Float32Array_from_numbers (colorComponents (drawingColor g)))
             g in
  let g := GL.bindBuffer None g in
  let g := set_currentCoordByteOffset
             (currentCoordByteOffset g + 2 * BYTES_PER_ELEMENT) g in
  let g := set_currentColorByteOffset
             (currentColorByteOffset g + 3 * BYTES_PER_ELEMENT) g in
  render (mkState g history).

(** ** [downloadDrawing] *)

(** A number inside [JSON.stringify]: a non-finite number is written as
    [null]. *)
Definition numberToJSON (x : number) : option Q :=
  match x with
  | Fin q => Some q
  | _ => None
  end.

(** A Float32Array is written as the object of its indexed elements. *)
Definition stringifyEntry (e : entry) : jsonEntry :=
  match e with
  | Run m n => JRun m n
  | F32 data => JSeq (map numberToJSON data)
  | Seq values => JSeq values
  end.

Definition JSON_stringify (history : list entry) : list jsonEntry :=
  map stringifyEntry history.

Definition downloadDrawing (s : state) : state * list jsonEntry :=
  let g := gl s in
  let vertices := Float32Array_new (currentCoordByteOffset g / BYTES_PER_ELEMENT) in
  let colors := Float32Array_new (currentColorByteOffset g / BYTES_PER_ELEMENT) in
  let g := GL.bindBuffer (Some PosBuffer) g in
  let vertices := GL.getBufferSubData vertices g in
  let g := GL.bindBuffer (Some ColorBuffer) g in
  let colors := GL.getBufferSubData colors g in
  let history := drawingHistory s ++ [F32 vertices; F32 colors] in
  let file := JSON_stringify history in
  let g := GL.bindBuffer None g in
  (mkState g history, file).

(** ** [uploadDrawing] *)

Definition parseEntry (j : jsonEntry) : entry :=
  match j with
  | JRun m n => Run m n
  | JSeq values => Seq values
  end.

Definition JSON_parse (file : list jsonEntry) : list entry :=
  map parseEntry file.

Definition Object_values (e : entry) : list jsValue :=
  match e with
  | Run m n => [VString m; VNumber (Fin (inject_Z n))]
  | F32 data => map VNumber data
  | Seq values =>
      map (fun v => match v with
                    | Some q => VNumber (Fin q)
                    | None => VNull
                    end) values
  end.

(** How the load handler of [uploadDrawing] ends: it returns, or
    [Object.values] throws a TypeError on the [undefined] that [pop] gives
    on an empty array. *)
Inductive outcome : Type :=
  | Returned (s : state) (calls : list glCall)
  | TypeError (s : state).

Section Upload.

(** The conversion of a string to a number, which [Float32Array.from]
    applies to a string element. *)
Variable StringToNumber : string -> number.

Definition ToNumber (v : jsValue) : number :=
  match v with
  | VNumber x => x
  | VNull => Fin 0
  | VString s => StringToNumber s
  end.

Definition Float32Array_from (values : list jsValue) : list number :=
  Float32Array_from_numbers (map ToNumber values).

(** The body of the ['load'] listener, on the parsed content of the
    file. *)
Definition uploadDrawing (result : list jsonEntry) (s : state) : outcome :=
  let history := JSON_parse result in
  match lastEntry history with
  | None => TypeError (mkState (gl s) history)
  | Some popped =>
      let colors := Object_values popped in
      let history := removelast history in
      match lastEntry history with
      | None => TypeError (mkState (gl s) history)
      | Some popped =>
          let vertices := Object_values popped in
          let history := removelast history in
          let g := gl s in
          let g := GL.bindBuffer (Some PosBuffer) g in
          let g := GL.bufferSubData 0 (Float32Array_from vertices) g in
          let g := GL.bindBuffer (Some ColorBuffer) g in
          let g := GL.bufferSubData 0 (Float32Array_from colors) g in
          let g := set_currentCoordByteOffset
                     (Z.of_nat (length vertices) * BYTES_PER_ELEMENT) g in
          let g := set_currentColorByteOffset
                     (Z.of_nat (length colors) * BYTES_PER_ELEMENT) g in
          let '(s', calls) := render (mkState g history) in
          Returned s' calls
      end
  end.

End Upload.

(** ** Editing events *)

(** A click on the canvas, a change of the mode selector, a change of the
    colour input (with the colour already converted by [hexToRgb]). *)
Inductive event : Type :=
  | Click (this : Canvas) (e : MouseEvent)
  | ChangeMode (value : string)
  | ChangeColor (rgb : number * number * number).

Definition handle (s : state) (ev : event) : state :=
  match ev with
  | Click this e => fst (addVertex this e s)
  | ChangeMode value => mkState (set_drawingMode value (gl s)) (drawingHistory s)
  | ChangeColor rgb => mkState (set_drawingColor rgb (gl s)) (drawingHistory s)
  end.

Definition handleAll (events : list event) (s : state) : state :=
  fold_left handle events s.

(** ** Notions of the specification *)

(** The number of vertices appended so far: the coordinate byte offset over
    the bytes of one position. *)
Definition vertexCount (s : state) : Z :=
  currentCoordByteOffset (gl s) / (2 * BYTES_PER_ELEMENT).

(** The sum of the run lengths of a ledger. *)
Fixpoint totalVertices (ledger : list entry) : Z :=
  match ledger with
  | [] => 0
  | e :: rest =>
      match entry_vertLength e with
      | Some n => n + totalVertices rest
      | None => totalVertices rest
      end
  end.

(** The ledger operation as the specification words it: lengthen the last
    run when its mode is the active one, else append a run of length 1. *)
Definition recordVertex (mode : string) (ledger : list entry) : list entry :=
  match lastEntry ledger with
  | Some (Run m n) =>
      if String.eqb m mode
      then removelast ledger ++ [Run m (n + 1)]
      else ledger ++ [Run mode 1]
  | _ => ledger ++ [Run mode 1]
  end.

(** The used prefix of the two buffers. *)
Definition exportPositions (s : state) : list number :=
  firstn (Z.to_nat (currentCoordByteOffset (gl s) / BYTES_PER_ELEMENT))
         (posBuffer (gl s)).

Definition exportColors (s : state) : list number :=
  firstn (Z.to_nat (currentColorByteOffset (gl s) / BYTES_PER_ELEMENT))
         (colorBuffer (gl s)).


(** The part of the state that is the drawing: ledger, stores, offsets. *)
Definition dataModel (s : state)
  : list entry * list number * list number * Z * Z :=
  (drawingHistory s, posBuffer (gl s), colorBuffer (gl s),
   currentCoordByteOffset (gl s), currentColorByteOffset (gl s)).

(** ** Invariants and auxiliary notions used by the statements *)

(** The ledger and the two offsets move together. *)
Definition inStep (s : state) : Prop :=
  forallb isRun (drawingHistory s) = true
  /\ currentCoordByteOffset (gl s)
     = 2 * BYTES_PER_ELEMENT * totalVertices (drawingHistory s)
  /\ currentColorByteOffset (gl s)
     = 3 * BYTES_PER_ELEMENT * totalVertices (drawingHistory s).

(** The mode selector and the ledger, which is all a click looks at to
    update the ledger. *)
Definition ledgerView (s : state) : string * list entry :=
  (drawingMode (gl s), drawingHistory s).

(** One event on that view, with the ledger operation of the
    specification for a click. *)
Definition ledgerStep (v : string * list entry) (ev : event)
  : string * list entry :=
  match ev with
  | Click _ _ => (fst v, recordVertex (fst v) (snd v))
  | ChangeMode value => (value, snd v)
  | ChangeColor _ => v
  end.

(** Selecting mode [m], then clicking. *)
Definition placeWithMode (this : Canvas) (e : MouseEvent) (m : string)
  : list event :=
  [ChangeMode m; Click this e].

(** A ledger made of run records only. *)
Definition runsLedger (runs : list (string * Z)) : list entry :=
  map (fun r => Run (fst r) (snd r)) runs.

(** The sum of the lengths of some runs. *)
Definition totalLength (runs : list (string * Z)) : Z :=
  fold_right (fun r acc => snd r + acc) 0 runs.

(** [k] render passes in a row: the state after them and the calls of each
    pass. *)
Fixpoint renderTimes (k : nat) (s : state) : state * list (list glCall) :=
  match k with
  | O => (s, [])
  | S k' =>
      let '(s1, calls) := render s in
      let '(s2, rest) := renderTimes k' s1 in
      (s2, calls :: rest)
  end.

(** Both stores have the size [initBuffers] gives them. *)
Definition allocated (s : state) : Prop :=
  Z.of_nat (length (posBuffer (gl s))) = MAX_VERTICES * 2
  /\ Z.of_nat (length (colorBuffer (gl s))) = MAX_VERTICES * 3.

(** Both offsets stand after [n] vertices. *)
Definition holdsVertices (s : state) (n : Z) : Prop :=
  0 <= n
  /\ currentCoordByteOffset (gl s) = 2 * BYTES_PER_ELEMENT * n
  /\ currentColorByteOffset (gl s) = 3 * BYTES_PER_ELEMENT * n.

(** The number of clicks among some events. *)
Fixpoint clicks (events : list event) : Z :=
  match events with
  | [] => 0
  | Click _ _ :: rest => 1 + clicks rest
  | _ :: rest => clicks rest
  end.

(** The offsets lie inside the buffers. *)
Definition withinBuffers (s : state) : Prop :=
  (Z.to_nat (currentCoordByteOffset (gl s) / BYTES_PER_ELEMENT)
   <= length (posBuffer (gl s)))%nat
  /\ (Z.to_nat (currentColorByteOffset (gl s) / BYTES_PER_ELEMENT)
      <= length (colorBuffer (gl s)))%nat.

(** The number that [Float32Array.from] makes of a parsed element. *)
Definition jsonToNumber (v : option Q) : number :=
  toFloat32 match v with
            | Some q => Fin q
            | None => Fin 0
            end.

(** The three components of a colour are finite. *)
Definition finiteColor (c : number * number * number) : bool :=
  let '(r, g, b) := c in isFinite r && isFinite g && isFinite b.

(** A colour component between 0 and 1. *)
Definition unitComponent (x : number) : bool :=
  match x with
  | Fin q => Qle_bool 0 q && Qle_bool q 1
  | _ => false
  end.

(** The three components of a colour are between 0 and 1. *)
Definition unitColor (c : number * number * number) : bool :=
  let '(r, g, b) := c in
  unitComponent r && unitComponent g && unitComponent b.

(** A click inside the canvas. *)
Definition insideCanvas (this : Canvas) (e : MouseEvent) : bool :=
  Qle_bool 0 (offsetX e)
  && Qle_bool (offsetX e) (inject_Z (offsetWidth this))
  && Qle_bool 0 (offsetY e)
  && Qle_bool (offsetY e) (inject_Z (offsetHeight this)).

(** A number whose conversion to binary32 is finite: a finite number that
    is not rounded to an infinity. *)
Definition storable (x : number) : bool := isFinite (toFloat32 x).

(** The three components of a colour are stored as finite numbers. *)
Definition storableColor (c : number * number * number) : bool :=
  let '(r, g, b) := c in storable r && storable g && storable b.

(** An event of an ordinary session: a click on a canvas of positive width
    and height whose clip coordinates are stored as finite numbers, a colour
    whose components are stored as finite numbers. *)
Definition ordinaryEvent (ev : event) : bool :=
  match ev with
  | Click this e =>
      (0 <? offsetWidth this) && (0 <? offsetHeight this)
      && forallb storable
           (clipCoordinates (offsetX e) (offsetY e)
                            (offsetWidth this) (offsetHeight this))
  | ChangeMode _ => true
  | ChangeColor c => storableColor c
  end.

(** Every element is a finite number. *)
Definition allFinite (data : list number) : Prop :=
  Forall (fun x => isFinite x = true) data.

(** A value of binary32 in units of 2^-149: a mantissa of at most 24 bits
    times a power of two, the mantissa having its 24 bits above the least
    exponent. *)
Definition float32Scaled (V : Z) : Prop :=
  exists m E, 0 <= E /\ 0 <= m <= 2 ^ 24 /\ (E = 0 \/ 2 ^ 23 <= m)
              /\ V = m * 2 ^ E.

(** Every element is a number that a Float32Array can hold. *)
Definition allFloat32 (data : list number) : Prop :=
  Forall (fun x => toFloat32 x = x) data.

(** Two numbers no further apart than 1e-6. *)
Definition closeTo (a b : number) : Prop :=
  match a, b with
  | Fin x, Fin y => (Qabs (x - y) <= 1 # 1000000)%Q
  | _, _ => False
  end.

(** What an ordinary session keeps true while it has appended [n] vertices,
    [n] at most MAX_VERTICES. *)
Definition sound (s : state) (n : Z) : Prop :=
  allocated s /\ holdsVertices s n /\ inStep s
  /\ allFinite (exportPositions s) /\ allFinite (exportColors s)
  /\ allFloat32 (exportPositions s) /\ allFloat32 (exportColors s)
  /\ storableColor (drawingColor (gl s)) = true.

(** ** The coordinate conversion in IEEE 754 arithmetic

    The expression of [addVertex] once more, on integer pixel values, with
    the binary64 operations of JavaScript and the rounding to binary32 of
    [Float32Array.from].  It serves to evaluate the conversion, rounding
    included, on given clicks. *)

Module Binary64.

Definition ofZ (z : Z) : spec_float := binary_normalize 53 1024 z 0 false.

Definition mul : spec_float -> spec_float -> spec_float := SFmul 53 1024.
Definition div : spec_float -> spec_float -> spec_float := SFdiv 53 1024.
Definition sub : spec_float -> spec_float -> spec_float := SFsub 53 1024.

(** The element of a Float32Array made from a binary64 number. *)
Definition toBinary32 (x : spec_float) : spec_float :=
  match x with
  | S754_finite s m e => binary_round 24 128 s m e
  | _ => x
  end.

(** [Float32Array.from([(2 * x) / w - 1, 1 - (2 * y) / h])] *)
Definition clipCoordinates (x y w h : Z) : list spec_float :=
  map toBinary32
      [ sub (div (mul (ofZ 2) (ofZ x)) (ofZ w)) (ofZ 1);
        sub (ofZ 1) (div (mul (ofZ 2) (ofZ y)) (ofZ h)) ].

(** The number that a binary floating-point datum stands for. *)
Definition value (x : spec_float) : number :=
  match x with
  | S754_zero _ => Fin 0
  | S754_infinity s => if s then NegInf else PosInf
  | S754_nan => NaN
  | S754_finite s m e =>
      Fin (Qred (inject_Z (if s then Zneg m else Zpos m) * Qpower 2 e))
  end.

(** [Float32Array.from([n / d])] on integers. *)
Definition quotient (n d : Z) : spec_float :=
  toBinary32 (div (ofZ n) (ofZ d)).

End Binary64.

(** ** [hexToRgb]

    A string is the sequence of its code units, each below 256. *)

(** The value of a digit of radix 16, in either case. *)
Definition hexDigitValue (c : ascii) : option Z :=
  let n := Z.of_N (N_of_ascii c) in
  if (48 <=? n) && (n <=? 57) then Some (n - 48)
  else if (97 <=? n) && (n <=? 102) then Some (n - 87)
  else if (65 <=? n) && (n <=? 70) then Some (n - 55)
  else None.

(** The white space and line terminators below 256: TAB, LF, VT, FF, CR,
    SP and NBSP. *)
Definition isWhiteSpace (c : ascii) : bool :=
  let n := Z.of_N (N_of_ascii c) in
  ((9 <=? n) && (n <=? 13)) || (n =? 32) || (n =? 160).

Fixpoint trimStart (s : string) : string :=
  match s with
  | String c rest => if isWhiteSpace c then trimStart rest else s
  | EmptyString => s
  end.

(** The value of the longest prefix of digits of radix 16; [acc] is the
    value of the digits read so far, [None] when none has been read. *)
Fixpoint digitsValue (s : string) (acc : option Z) : option Z :=
  match s with
  | String c rest =>
      match hexDigitValue c with
      | Some d =>
          digitsValue rest
            (Some (16 * match acc with Some a => a | None => 0 end + d))
      | None => acc
      end
  | EmptyString => acc
  end.

(** [parseInt(input, 16)]: leading white space, a sign and a prefix [0x] or
    [0X] are skipped; without a digit after them the result is NaN. *)
Definition parseInt16 (input : string) : number :=
  let S := trimStart input in
  let sign :=
    match S with
    | String c _ => if Ascii.eqb c "-" then -1 else 1
    | EmptyString => 1
    end in
  let S :=
    match S with
    | String c rest => if Ascii.eqb c "+" || Ascii.eqb c "-" then rest else S
    | EmptyString => S
    end in
  let S :=
    match S with
    | String c0 (String c1 rest) =>
        if Ascii.eqb c0 "0" && (Ascii.eqb c1 "x" || Ascii.eqb c1 "X")
        then rest
        else S
    | _ => S
    end in
  match digitsValue S None with
  | None => NaN
  | Some mathInt => Fin (inject_Z (sign * mathInt))
  end.

Definition hexToRgb (hexValue : string) : number * number * number :=
  (number_div (parseInt16 (substring 1 2 hexValue)) (Fin 255),
   number_div (parseInt16 (substring 3 2 hexValue)) (Fin 255),
   number_div (parseInt16 (substring 5 2 hexValue)) (Fin 255)).

(** The listener [changeColor] of [initEvents], on the value of the colour
    input. *)
Definition changeColor (value : string) (s : state) : state :=
  handle s (ChangeColor (hexToRgb value)).

(** ** Further notions: what a session stores, what a ledger stands for *)


(** The mode that is active at each click of some events, in order; [mode]
    is the mode before the events. *)
Fixpoint clickModes (events : list event) (mode : string) : list string :=
  match events with
  | [] => []
  | Click _ _ :: rest => mode :: clickModes rest mode
  | ChangeMode value :: rest => clickModes rest value
  | ChangeColor _ :: rest => clickModes rest mode
  end.

(** The mode of every vertex that a ledger of runs covers, in order. *)
Fixpoint vertexModes (ledger : list entry) : list string :=
  match ledger with
  | [] => []
  | Run m n :: rest => repeat m (Z.to_nat n) ++ vertexModes rest
  | _ :: rest => vertexModes rest
  end.

(** A ledger of runs of at least one vertex in which two neighbours never
    have the same mode. *)
Fixpoint maximalRuns (ledger : list entry) : bool :=
  match ledger with
  | [] => true
  | Run m n :: rest =>
      (1 <=? n)
      && match rest with
         | Run m' _ :: _ => negb (String.eqb m m')
         | [] => true
         | _ => false
         end
      && maximalRuns rest
  | _ => false
  end.

(** What a save and a load make of a stored number. *)
Definition zeroIfNotFinite (x : number) : number :=
  if isFinite x then x else Fin 0.

(** A number between -1 and 1. *)
Definition inClipRange (a : number) : Prop :=
  match a with
  | Fin q => (-1 <= q <= 1)%Q
  | _ => False
  end.

(** What a load followed by a save makes of an element of a file: [null]
    is read as 0 and written as 0; a number is written as the binary32
    number nearest to it, or as [null] when it is so large that it is
    stored as an infinity. *)
Definition resaved (v : option Q) : option Q :=
  match v with
  | None => Some 0%Q
  | Some q =>
      match toFloat32 (Fin q) with
      | Fin r => Some r
      | _ => None
      end
  end.


(** An element of a file that is a binary32 number. *)
Definition float32Element (v : option Q) : Prop :=
  exists q, v = Some q /\ toFloat32 (Fin q) = Fin q.

(** * Properties *)

Arguments Float32Array_new : simpl never.
Arguments toFloat32 : simpl never.
Arguments Float32Array_from_numbers : simpl never.

(** ** The conversion to binary32 *)

Lemma roundHalfEven_exact (k D : Z) : 0 < D -> roundHalfEven (k * D) D = k.
Proof.
  intros HD. unfold roundHalfEven.
  rewrite Z.div_mul, Z.mod_mul by lia.
  now destruct D.
Qed.

Lemma roundHalfEven_bounds (n D : Z) :
  0 < D -> n / D <= roundHalfEven n D <= n / D + 1.
Proof.
  intros HD. unfold roundHalfEven.
  destruct (2 * (n mod D) ?= D); [destruct (Z.even (n / D))|..]; lia.
Qed.

Lemma roundHalfEven_le (n D K : Z) :
  0 < D -> n <= K * D -> roundHalfEven n D <= K.
Proof.
  intros HD Hn. unfold roundHalfEven.
  pose proof (Z.div_mod n D ltac:(lia)) as Hdm.
  pose proof (Z.mod_pos_bound n D HD) as Hm.
  assert (Hq : n / D <= K) by (apply Z.div_le_upper_bound; lia).
  destruct (Z.eq_dec (n / D) K) as [E|E].
  - assert (Hr : n mod D = 0) by nia.
    rewrite Hr. replace (2 * 0 ?= D) with Lt by (symmetry; apply Z.compare_lt_iff; lia).
    lia.
  - destruct (2 * (n mod D) ?= D); [destruct (Z.even (n / D))|..]; lia.
Qed.

Lemma roundHalfEven_ge (n D K : Z) :
  0 < D -> K * D <= n -> K <= roundHalfEven n D.
Proof.
  intros HD Hn.
  assert (Hq : K <= n / D) by (apply Z.div_le_lower_bound; lia).
  pose proof (roundHalfEven_bounds n D HD). lia.
Qed.

Lemma nearestFloat32_scaled (a d : Z) :
  0 <= a -> 0 < d -> float32Scaled (nearestFloat32 a d).
Proof.
  intros Ha Hd. unfold nearestFloat32.
  set (A := a * 2 ^ 149). set (t := A / d).
  set (E := Z.max 0 (Z.log2 t - 23)).
  assert (HA : 0 <= A) by (unfold A; apply Z.mul_nonneg_nonneg; lia).
  assert (Ht : 0 <= t) by (unfold t; apply Z.div_pos; lia).
  assert (HE : 0 <= E) by lia.
  assert (HpE : 0 < 2 ^ E) by (apply Z.pow_pos_nonneg; lia).
  assert (HD : 0 < d * 2 ^ E) by nia.
  pose proof (Z.div_mod A d ltac:(lia)) as Hdm.
  pose proof (Z.mod_pos_bound A d Hd) as Hm. fold t in Hdm.
  exists (roundHalfEven A (d * 2 ^ E)), E.
  split; [exact HE|]. split; [split|split; [|reflexivity]].
  - apply roundHalfEven_ge; [exact HD|]. lia.
  - apply roundHalfEven_le; [exact HD|].
    assert (Ht1 : t + 1 <= 2 ^ (E + 24)).
    { destruct (Z.eq_dec t 0) as [->|Hnz].
      - assert (1 <= 2 ^ (E + 24)) by (apply (Z.pow_le_mono_r 2 0); lia). lia.
      - destruct (Z.log2_spec t ltac:(lia)) as [_ Hup].
        assert (2 ^ Z.succ (Z.log2 t) <= 2 ^ (E + 24))
          by (apply Z.pow_le_mono_r; lia).
        lia. }
    rewrite Z.pow_add_r in Ht1 by lia. nia.
  - destruct (Z.eq_dec E 0) as [->|HE0]; [now left|right].
    apply roundHalfEven_ge; [exact HD|].
    assert (Hlog : Z.log2 t = E + 23) by lia.
    assert (Htpos : 0 < t).
    { destruct (Z.eq_dec t 0) as [E0|]; [|lia].
      rewrite E0 in Hlog. cbn in Hlog. lia. }
    destruct (Z.log2_spec t Htpos) as [Hlow _].
    rewrite Hlog, Z.pow_add_r in Hlow by lia. nia.
Qed.

Lemma nearestFloat32_fixed (a d V : Z) :
  0 < d -> a * 2 ^ 149 = V * d -> float32Scaled V ->
  nearestFloat32 a d = V.
Proof.
  intros Hd Ha (m & E & HE & Hm & Hnorm & ->).
  unfold nearestFloat32. rewrite Ha, Z.div_mul by lia.
  assert (HpE : 0 < 2 ^ E) by (apply Z.pow_pos_nonneg; lia).
  destruct (Z.eq_dec m 0) as [->|Hm0].
  { replace (0 * 2 ^ E) with 0 by lia.
    change (Z.max 0 (Z.log2 0 - 23)) with 0.
    replace (0 * d) with (0 * (d * 2 ^ 0)) by lia.
    rewrite roundHalfEven_exact; [reflexivity|]. cbn. lia. }
  assert (Hlogm : Z.log2 (m * 2 ^ E) = E + Z.log2 m)
    by (apply Z.log2_mul_pow2; lia).
  destruct (Z.eq_dec m (2 ^ 24)) as [->|Hm24].
  - rewrite Hlogm. change (Z.log2 (2 ^ 24)) with 24.
    replace (Z.max 0 (E + 24 - 23)) with (E + 1) by lia.
    replace (2 ^ 24 * 2 ^ E * d) with (2 ^ 23 * (d * 2 ^ (E + 1)))
      by (rewrite Z.pow_add_r by lia; change (2 ^ 24) with (2 ^ 23 * 2);
          change (2 ^ 1) with 2; ring).
    rewrite roundHalfEven_exact.
    + rewrite Z.pow_add_r by lia. change (2 ^ 24) with (2 ^ 23 * 2).
      change (2 ^ 1) with 2. ring.
    + assert (0 < 2 ^ (E + 1)) by (apply Z.pow_pos_nonneg; lia). nia.
  - assert (Hlt : m < 2 ^ 24) by lia.
    assert (Hlog : Z.log2 m <= 23).
    { assert (Z.log2 m < 24); [|lia].
      apply Z.log2_lt_pow2; lia. }
    destruct Hnorm as [->|Hnorm].
    + rewrite Hlogm.
      replace (Z.max 0 (0 + Z.log2 m - 23)) with 0 by lia.
      replace (m * 2 ^ 0 * d) with (m * (d * 2 ^ 0)) by ring.
      rewrite roundHalfEven_exact; [reflexivity|]. cbn. lia.
    + assert (Hlog' : 23 <= Z.log2 m).
      { apply Z.log2_le_pow2; lia. }
      rewrite Hlogm.
      replace (Z.max 0 (E + Z.log2 m - 23)) with E by lia.
      replace (m * 2 ^ E * d) with (m * (d * 2 ^ E)) by ring.
      rewrite roundHalfEven_exact; [reflexivity|nia].
Qed.

Lemma Qred_Qred (q : Q) : Qred (Qred q) = Qred q.
Proof. apply Qred_complete, Qred_correct. Qed.


Lemma nearestFloat32_nonneg (a d : Z) :
  0 <= a -> 0 < d -> 0 <= nearestFloat32 a d.
Proof.
  intros Ha Hd.
  destruct (nearestFloat32_scaled a d Ha Hd) as (m & E & HE & Hm & _ & ->).
  assert (0 < 2 ^ E) by (apply Z.pow_pos_nonneg; lia). nia.
Qed.

Lemma scaled_sign (n n' V d' P : Z) :
  0 <= V -> 0 < d' -> 0 < P -> (n = 0 -> V = 0) ->
  n' * P = Z.sgn n * V * d' ->
  Z.sgn n' * V = Z.sgn n * V /\ Z.abs n' * P = V * d'.
Proof.
  intros HV Hd' HP Hzero Hv.
  destruct (Z.eq_dec V 0) as [E0|HV0].
  - rewrite E0 in *. rewrite Z.mul_0_r, Z.mul_0_l in Hv.
    assert (H : n' = 0) by nia. rewrite H. cbn. split; lia.
  - destruct (Z.sgn_spec n) as [[Hn Es]|[[Hn Es]|[Hn Es]]]; rewrite Es in *.
    + assert (0 < n') by nia. rewrite (Z.sgn_pos n'), (Z.abs_eq n') by lia.
      split; [reflexivity|]. lia.
    + now destruct HV0; apply Hzero.
    + assert (n' < 0) by nia. rewrite (Z.sgn_neg n'), (Z.abs_neq n') by lia.
      split; [reflexivity|]. lia.
Qed.

Lemma nearestFloat32_zero (d : Z) : 0 < d -> nearestFloat32 0 d = 0.
Proof.
  intros Hd. apply nearestFloat32_fixed; [exact Hd|reflexivity|].
  exists 0, 0. split; [lia|]. split; [lia|]. split; [now left|reflexivity].
Qed.

Lemma toFloat32_of_Qred (V : Z) (s : Z) :
  float32Scaled V -> (2 ^ 277 <=? V) = false -> (s = 0 -> V = 0) ->
  toFloat32 (Fin (Qred (Z.sgn s * V # 2 ^ 149)))
  = Fin (Qred (Z.sgn s * V # 2 ^ 149)).
Proof.
  intros Hscaled Eover Hzero.
  assert (HV : 0 <= V).
  { destruct Hscaled as (m & E & HE & Hm & _ & ->).
    assert (0 < 2 ^ E) by (apply Z.pow_pos_nonneg; lia). nia. }
  pose (v := Qred (Z.sgn s * V # 2 ^ 149)).
  assert (Hv : (v == Z.sgn s * V # 2 ^ 149)%Q) by apply Qred_correct.
  unfold Qeq in Hv. cbn [Qnum Qden] in Hv.
  change (Z.pos (2 ^ 149)) with (2 ^ 149) in Hv.
  destruct (scaled_sign s (Qnum v) V (Zpos (Qden v)) (2 ^ 149)
                        HV eq_refl eq_refl Hzero Hv)
    as [Hs Ha].
  unfold toFloat32. rewrite Qred_Qred. fold v.
  rewrite (nearestFloat32_fixed (Z.abs (Qnum v)) (Zpos (Qden v)) V
                                eq_refl Ha Hscaled).
  rewrite Eover, Hs. reflexivity.
Qed.

Lemma toFloat32_idempotent (x : number) :
  toFloat32 (toFloat32 x) = toFloat32 x.
Proof.
  destruct x as [q| | |]; try reflexivity.
  unfold toFloat32 at 2 3.
  pose proof (nearestFloat32_scaled (Z.abs (Qnum (Qred q)))
                (Zpos (Qden (Qred q))) (Z.abs_nonneg _) eq_refl) as Hscaled.
  destruct (2 ^ 277 <=? _) eqn:Eover.
  - now destruct (Qnum (Qred q) <? 0).
  - apply toFloat32_of_Qred; try assumption.
    intros ->. now apply nearestFloat32_zero.
Qed.

Lemma roundHalfEven_error (n D : Z) :
  0 < D -> 2 * Z.abs (roundHalfEven n D * D - n) <= D.
Proof.
  intros HD. unfold roundHalfEven.
  pose proof (Z.div_mod n D ltac:(lia)) as Hdm.
  pose proof (Z.mod_pos_bound n D HD) as Hm.
  remember (n / D) as q eqn:Eq. remember (n mod D) as r eqn:Er.
  clear Eq Er. subst n.
  assert (E0 : q * D - (D * q + r) = - r) by ring.
  assert (E1 : (q + 1) * D - (D * q + r) = D - r) by ring.
  destruct (Z.compare_spec (2 * r) D) as [Ecmp|Ecmp|Ecmp];
    [destruct (Z.even q)|..]; rewrite ?E0, ?E1; lia.
Qed.

(** The scaled value nearest to [a / d] when [a <= d]: at most 2^149, and
    within half a unit in the last place, 2^124, of [a * 2^149 / d]. *)
Lemma nearestFloat32_unit (a d : Z) :
  0 <= a <= d -> 0 < d ->
  0 <= nearestFloat32 a d <= 2 ^ 149
  /\ Z.abs (nearestFloat32 a d * d - a * 2 ^ 149) <= d * 2 ^ 124.
Proof.
  intros Ha Hd.
  split; [split; [apply nearestFloat32_nonneg; lia|]|].
  - unfold nearestFloat32.
    set (A := a * 2 ^ 149). set (t := A / d).
    set (E := Z.max 0 (Z.log2 t - 23)).
    assert (HA : 0 <= A <= d * 2 ^ 149).
    { unfold A. assert (0 < 2 ^ 149) by reflexivity. nia. }
    assert (Ht : 0 <= t <= 2 ^ 149).
    { unfold t. split; [apply Z.div_pos; lia|].
      apply Z.div_le_upper_bound; lia. }
    assert (HE : 0 <= E <= 149).
    { assert (Z.log2 t <= 149); [|lia].
      change 149 with (Z.log2 (2 ^ 149)). apply Z.log2_le_mono. lia. }
    assert (HpE : 0 < 2 ^ E) by (apply Z.pow_pos_nonneg; lia).
    assert (Hsplit : 2 ^ 149 = 2 ^ (149 - E) * 2 ^ E)
      by (rewrite <- Z.pow_add_r by lia; f_equal; lia).
    assert (Hm : roundHalfEven A (d * 2 ^ E) <= 2 ^ (149 - E)).
    { apply roundHalfEven_le; [nia|]. rewrite Hsplit in HA. nia. }
    rewrite Hsplit. nia.
  - destruct (Z.eq_dec a d) as [->|Hne].
    + rewrite (nearestFloat32_fixed d d (2 ^ 149) Hd (Z.mul_comm _ _)).
      * replace (2 ^ 149 * d - d * 2 ^ 149) with 0 by ring. cbn. nia.
      * exists (2 ^ 23), 126.
        split; [lia|]. split; [lia|]. split; [right; lia|reflexivity].
    + unfold nearestFloat32.
      set (A := a * 2 ^ 149). set (t := A / d).
      set (E := Z.max 0 (Z.log2 t - 23)).
      assert (HA : 0 <= A < d * 2 ^ 149).
      { unfold A. assert (0 < 2 ^ 149) by reflexivity. nia. }
      assert (Ht : 0 <= t < 2 ^ 149).
      { unfold t. split; [apply Z.div_pos; lia|].
        apply Z.div_lt_upper_bound; lia. }
      assert (HE : 0 <= E <= 125).
      { assert (Z.log2 t < 149); [|lia].
        destruct (Z.eq_dec t 0) as [->|]; [reflexivity|].
        apply Z.log2_lt_pow2; lia. }
      assert (HpE : 0 < 2 ^ E <= 2 ^ 125)
        by (split; [apply Z.pow_pos_nonneg|apply Z.pow_le_mono_r]; lia).
      pose proof (roundHalfEven_error A (d * 2 ^ E) ltac:(nia)) as Herr.
      replace (roundHalfEven A (d * 2 ^ E) * 2 ^ E * d)
        with (roundHalfEven A (d * 2 ^ E) * (d * 2 ^ E)) by ring.
      change (2 ^ 125) with (2 * 2 ^ 124) in HpE. nia.
Qed.

Lemma toFloat32_unit_range (q : Q) :
  (Qabs q <= 1)%Q ->
  exists r, toFloat32 (Fin q) = Fin r
            /\ (Qabs r <= 1)%Q /\ (Qabs (r - q) <= 1 # 2 ^ 25)%Q.
Proof.
  intros Hq. unfold toFloat32.
  assert (Hred : (Qred q == q)%Q) by apply Qred_correct.
  rewrite <- Hred in Hq.
  destruct (Qred q) as [n dp] eqn:Eq. cbn [Qnum Qden].
  assert (Hn : 0 <= Z.abs n <= Zpos dp).
  { split; [apply Z.abs_nonneg|]. unfold Qle in Hq. cbn in Hq. lia. }
  destruct (nearestFloat32_unit (Z.abs n) (Zpos dp) Hn eq_refl)
    as [HV Herr].
  set (V := nearestFloat32 (Z.abs n) (Zpos dp)) in *.
  assert (Eover : (2 ^ 277 <=? V) = false).
  { apply Z.leb_gt. assert (2 ^ 149 < 2 ^ 277) by reflexivity. lia. }
  rewrite Eover. eexists. split; [reflexivity|].
  rewrite <- Hred, (Qred_correct (Z.sgn n * V # 2 ^ 149)).
  assert (Hp : Z.pos (2 ^ 149) = 2 ^ 149) by reflexivity.
  assert (Hp25 : Z.pos (2 ^ 25) = 2 ^ 25) by reflexivity.
  assert (Hpow : 2 ^ 149 = 2 ^ 25 * 2 ^ 124) by reflexivity.
  split.
  - unfold Qle, Qabs. cbn [Qnum Qden]. rewrite Hp.
    destruct (Z.sgn_spec n) as [[_ ->]|[[_ ->]|[_ ->]]]; lia.
  - unfold Qle, Qabs, Qminus, Qplus, Qopp. cbn [Qnum Qden].
    rewrite Pos2Z.inj_mul, Hp, Hp25.
    destruct (Z.sgn_spec n) as [[Hs ->]|[[Hs ->]|[Hs ->]]].
    + rewrite (Z.abs_eq n) in Herr by lia. nia.
    + subst n. cbn in Herr. nia.
    + rewrite (Z.abs_neq n) in Herr by lia. nia.
Qed.

(** ** Non-finite numbers and empty files *)

Example zero_size_canvas_gives_NaN :
  clipCoordinates 0 0 0 0 = [NaN; NaN].
Proof. reflexivity. Qed.

Example non_finite_is_written_as_null :
  map numberToJSON [NaN; PosInf; NegInf; Fin 1] = [None; None; None; Some 1%Q].
Proof. reflexivity. Qed.

Example null_is_read_as_zero :
  map jsonToNumber [None; Some 1%Q] = [Fin 0; Fin 1].
Proof. reflexivity. Qed.

(** [pop] on an empty array gives [undefined], on which [Object.values]
    throws; by then [drawingHistory] has been assigned. *)
Example load_of_empty_array_throws (s : state) :
  uploadDrawing (fun _ => NaN) [] s = TypeError (mkState (gl s) [])
  /\ uploadDrawing (fun _ => NaN) [JSeq []] s = TypeError (mkState (gl s) []).
Proof. split; reflexivity. Qed.

(** ** Lists seen from their last element *)

Lemma history_cases (h : list entry) :
  h = [] \/ exists h' e, h = h' ++ [e].
Proof.
  destruct h as [|a h]; [now left|right].
  destruct (exists_last (l := a :: h)) as (h' & e & ->); [discriminate|].
  now exists h', e.
Qed.

Lemma lastEntry_snoc (h : list entry) (e : entry) :
  lastEntry (h ++ [e]) = Some e.
Proof.
  induction h as [|a h IH]; [reflexivity|].
  simpl. rewrite IH. now destruct (h ++ [e]) eqn:E; [destruct h|].
Qed.

Lemma incrementLast_snoc_run (h : list entry) (m : string) (n : Z) :
  incrementLast (h ++ [Run m n]) = h ++ [Run m (n + 1)].
Proof.
  induction h as [|a h IH]; [reflexivity|].
  simpl. rewrite IH.
  destruct (h ++ [Run m n]) eqn:E; [now destruct h|].
  now destruct a.
Qed.

Lemma totalVertices_app (a b : list entry) :
  totalVertices (a ++ b) = totalVertices a + totalVertices b.
Proof.
  induction a as [|e a IH]; [reflexivity|].
  simpl. destruct (entry_vertLength e); lia.
Qed.

Lemma forallb_isRun_snoc (h : list entry) (e : entry) :
  forallb isRun (h ++ [e]) = forallb isRun h && isRun e.
Proof. rewrite forallb_app. simpl. now rewrite andb_true_r. Qed.

(** ** What [addVertex] does to the state *)

Lemma ledger_after_push_and_increment (m : string) (h : list entry) :
  incrementLast (if startsNewRun m h then h ++ [Run m 0] else h)
  = recordVertex m h.
Proof.
  unfold startsNewRun, recordVertex.
  destruct (history_cases h) as [->|(h' & e & ->)]; [reflexivity|].
  rewrite lastEntry_snoc.
  destruct e as [m' n| |]; simpl;
    try (now rewrite incrementLast_snoc_run).
  rewrite (String.eqb_sym m m').
  destruct (String.eqb m' m) eqn:E; simpl.
  - now rewrite incrementLast_snoc_run, removelast_last.
  - now rewrite incrementLast_snoc_run.
Qed.

Lemma converted_position_length (x y : Q) (w h : Z) :
  length (Float32Array_from_numbers (clipCoordinates x y w h)) = 2%nat.
Proof. reflexivity. Qed.

Lemma converted_color_length (c : number * number * number) :
  length (Float32Array_from_numbers (colorComponents c)) = 3%nat.
Proof. now destruct c as [[r g] b]. Qed.

Lemma addVertex_state (this : Canvas) (e : MouseEvent) (s : state) :
  fst (addVertex this e s)
  = mkState
      (mkGL (currentCoordByteOffset (gl s) + 2 * BYTES_PER_ELEMENT)
            (currentColorByteOffset (gl s) + 3 * BYTES_PER_ELEMENT)
            (GL.writeStore (posBuffer (gl s)) (currentCoordByteOffset (gl s))
               (Float32Array_from_numbers
                  (clipCoordinates (offsetX e) (offsetY e)
                                   (offsetWidth this) (offsetHeight this))))
            (GL.writeStore (colorBuffer (gl s)) (currentColorByteOffset (gl s))
               (Float32Array_from_numbers
                  (colorComponents (drawingColor (gl s)))))
            None false (drawingMode (gl s)) (drawingColor (gl s)))
      (recordVertex (drawingMode (gl s)) (drawingHistory s)).
Proof.
  unfold addVertex, render.
  cbn -[clipCoordinates GL.writeStore Z.mul Float32Array_from_numbers].
  now rewrite ledger_after_push_and_increment.
Qed.

Lemma addVertex_calls (this : Canvas) (e : MouseEvent) (s : state) :
  snd (addVertex this e s)
  = Clear :: fst (drawEach (recordVertex (drawingMode (gl s)) (drawingHistory s))
                           (Some 0)).
Proof.
  unfold addVertex, render.
  cbn -[clipCoordinates GL.writeStore Z.mul Float32Array_from_numbers].
  now rewrite ledger_after_push_and_increment.
Qed.

Lemma recordVertex_same (m : string) (h : list entry) (n : Z) :
  recordVertex m (h ++ [Run m n]) = h ++ [Run m (n + 1)].
Proof.
  unfold recordVertex. rewrite lastEntry_snoc, String.eqb_refl.
  now rewrite removelast_last.
Qed.

Lemma recordVertex_new (m : string) (h : list entry) :
  (forall h' n, h <> h' ++ [Run m n]) ->
  recordVertex m h = h ++ [Run m 1].
Proof.
  intros Hlast. unfold recordVertex.
  destruct (history_cases h) as [->|(h' & e & ->)]; [reflexivity|].
  rewrite lastEntry_snoc. destruct e as [m' n| |]; try reflexivity.
  destruct (String.eqb_spec m' m) as [->|]; [|reflexivity].
  now destruct (Hlast h' n).
Qed.

Lemma recordVertex_other (m : string) (h : list entry) (m' : string) (n : Z) :
  m' <> m ->
  recordVertex m (h ++ [Run m' n]) = h ++ [Run m' n; Run m 1].
Proof.
  intros Hm. unfold recordVertex. rewrite lastEntry_snoc.
  apply String.eqb_neq in Hm. rewrite Hm.
  now rewrite <- app_assoc.
Qed.

Lemma totalVertices_recordVertex (m : string) (h : list entry) :
  totalVertices (recordVertex m h) = totalVertices h + 1.
Proof.
  unfold recordVertex.
  destruct (history_cases h) as [->|(h' & e & ->)]; [reflexivity|].
  rewrite lastEntry_snoc.
  destruct e as [m' n| |]; try destruct (String.eqb m' m);
    rewrite ?removelast_last, !totalVertices_app; simpl; lia.
Qed.

Lemma isRun_recordVertex (m : string) (h : list entry) :
  forallb isRun h = true -> forallb isRun (recordVertex m h) = true.
Proof.
  unfold recordVertex.
  destruct (history_cases h) as [->|(h' & e & ->)]; [reflexivity|].
  rewrite lastEntry_snoc, forallb_isRun_snoc.
  intros [Hh' He]%andb_prop.
  destruct e as [m' n| |]; try discriminate.
  destruct (String.eqb m' m);
    rewrite ?removelast_last, !forallb_isRun_snoc, ?Hh', ?forallb_isRun_snoc, ?Hh';
    reflexivity.
Qed.

(** ** The editing events, seen from the ledger *)

Lemma handle_history (s : state) (ev : event) :
  drawingHistory (handle s ev)
  = match ev with
    | Click _ _ => recordVertex (drawingMode (gl s)) (drawingHistory s)
    | _ => drawingHistory s
    end.
Proof. destruct ev; unfold handle; [now rewrite addVertex_state|reflexivity..]. Qed.

Lemma handle_mode (s : state) (ev : event) :
  drawingMode (gl (handle s ev))
  = match ev with
    | ChangeMode value => value
    | _ => drawingMode (gl s)
    end.
Proof. destruct ev; unfold handle; [now rewrite addVertex_state|reflexivity..]. Qed.

Lemma handle_offsets (s : state) (ev : event) :
  currentCoordByteOffset (gl (handle s ev))
  = match ev with
    | Click _ _ => currentCoordByteOffset (gl s) + 2 * BYTES_PER_ELEMENT
    | _ => currentCoordByteOffset (gl s)
    end
  /\ currentColorByteOffset (gl (handle s ev))
     = match ev with
       | Click _ _ => currentColorByteOffset (gl s) + 3 * BYTES_PER_ELEMENT
       | _ => currentColorByteOffset (gl s)
       end.
Proof. destruct ev; unfold handle; [now rewrite addVertex_state|split; reflexivity..]. Qed.

Lemma inStep_init (mode : string) (color : number * number * number) :
  inStep (init mode color).
Proof. repeat split. Qed.

Lemma inStep_handle (s : state) (ev : event) :
  inStep s -> inStep (handle s ev).
Proof.
  intros (Hruns & Hpos & Hcol).
  destruct (handle_offsets s ev) as [Ep Ec].
  unfold inStep. rewrite handle_history, Ep, Ec.
  destruct ev; [|now repeat split..].
  rewrite totalVertices_recordVertex.
  repeat split; [now apply isRun_recordVertex|lia..].
Qed.

Lemma inStep_handleAll (events : list event) (s : state) :
  inStep s -> inStep (handleAll events s).
Proof.
  revert s. induction events as [|ev events IH]; intros s Hs; [exact Hs|].
  simpl. now apply IH, inStep_handle.
Qed.

Lemma drawEach_final (h : list entry) (start : Z) :
  forallb isRun h = true ->
  snd (drawEach h (Some start)) = Some (start + totalVertices h).
Proof.
  revert start. induction h as [|e h IH]; intros start Hruns; simpl.
  - f_equal. lia.
  - apply andb_prop in Hruns as [He Hh].
    destruct e as [m n| |]; try discriminate. simpl.
    specialize (IH (start + n) Hh).
    destruct (drawEach h (Some (start + n))) as [calls final].
    simpl in *. rewrite IH. f_equal. lia.
Qed.

(** C1: from the start of a session, after any sequence of vertex
    placements (clicks, with changes of mode and colour between them) the
    run lengths of [drawingHistory] add up to the number of vertices given by
    the coordinate byte offset, and that is the value the running index of a
    render pass ends on. *)
Theorem ledger_total_is_vertexCount
        (mode : string) (color : number * number * number)
        (events : list event) :
  let s := handleAll events (init mode color) in
  totalVertices (drawingHistory s) = vertexCount s
  /\ snd (drawEach (drawingHistory s) (Some 0)) = Some (vertexCount s).
Proof.
  intros s.
  destruct (inStep_handleAll events _ (inStep_init mode color))
    as (Hruns & Hpos & _).
  fold s in Hruns, Hpos.
  assert (E : vertexCount s = totalVertices (drawingHistory s)).
  { unfold vertexCount. rewrite Hpos.
    rewrite Z.mul_comm. apply Z.div_mul. discriminate. }
  split; [now rewrite E|].
  rewrite drawEach_final by assumption. now rewrite E.
Qed.

Lemma ledgerView_handleAll (events : list event) (s : state) :
  ledgerView (handleAll events s) = fold_left ledgerStep events (ledgerView s).
Proof.
  revert s. induction events as [|ev events IH]; intros s; [reflexivity|].
  simpl. rewrite IH. f_equal.
  unfold ledgerView. rewrite handle_history, handle_mode.
  now destruct ev.
Qed.

Lemma ledgerView_history (s : state) :
  drawingHistory s = snd (ledgerView s).
Proof. reflexivity. Qed.

Lemma ledgerView_init (mode : string) (color : number * number * number) :
  ledgerView (init mode color) = (mode, []).
Proof. reflexivity. Qed.

(** C2: a click with active mode [m] lengthens the last run by one when the
    ledger ends with a run of mode [m], and otherwise appends the run
    [{m, 1}]; so six clicks with modes A, A, B, B, B, A (A and B different)
    in a new session leave the ledger [{A,2}, {B,3}, {A,1}]. *)
Theorem addVertex_extends_or_starts_run
        (this : Canvas) (e : MouseEvent) (s : state)
        (A B mode0 : string) (color0 : number * number * number) :
  A <> B ->
  let m := drawingMode (gl s) in
  let after := drawingHistory (fst (addVertex this e s)) in
  (forall h n, drawingHistory s = h ++ [Run m n] ->
               after = h ++ [Run m (n + 1)])
  /\ ((forall h n, drawingHistory s <> h ++ [Run m n]) ->
      after = drawingHistory s ++ [Run m 1])
  /\ drawingHistory
       (handleAll (flat_map (placeWithMode this e) [A; A; B; B; B; A])
                  (init mode0 color0))
     = [Run A 2; Run B 3; Run A 1].
Proof.
  intros HAB m after. subst after. rewrite addVertex_state.
  cbn [drawingHistory]. fold m. repeat split.
  - intros h n ->. apply recordVertex_same.
  - apply recordVertex_new.
  - rewrite (ledgerView_history (handleAll _ _)), ledgerView_handleAll.
    rewrite ledgerView_init.
    cbn [fold_left flat_map placeWithMode app ledgerStep fst snd].
    assert (E1 : recordVertex A [] = [Run A 1]) by reflexivity.
    assert (E2 : recordVertex A [Run A 1] = [Run A 2])
      by apply (recordVertex_same A [] 1).
    assert (E3 : recordVertex B [Run A 2] = [Run A 2; Run B 1])
      by now apply (recordVertex_other B [] A 2).
    assert (E4 : recordVertex B [Run A 2; Run B 1] = [Run A 2; Run B 2])
      by apply (recordVertex_same B [Run A 2] 1).
    assert (E5 : recordVertex B [Run A 2; Run B 2] = [Run A 2; Run B 3])
      by apply (recordVertex_same B [Run A 2] 2).
    assert (E6 : recordVertex A [Run A 2; Run B 3]
                 = [Run A 2; Run B 3; Run A 1])
      by (apply (recordVertex_other A [Run A 2] B 3); congruence).
    now rewrite E1, E2, E3, E4, E5, E6.
Qed.

Lemma addVertex_extends_or_starts_run_witness :
  let s := init "POINTS" (Fin 0, Fin 0, Fin 0) in
  let this := mkCanvas 300 150 in
  let e := mkClick 10 20 in
  "TRIANGLES"%string <> "LINES"%string
  /\ drawingHistory (fst (addVertex this e s)) = [Run "POINTS" 1]
  /\ drawingHistory
       (handleAll (flat_map (placeWithMode this e)
                            ["TRIANGLES"; "TRIANGLES"; "LINES"; "LINES";
                             "LINES"; "TRIANGLES"]%string)
                  (init "POINTS" (Fin 0, Fin 0, Fin 0)))
     = [Run "TRIANGLES" 2; Run "LINES" 3; Run "TRIANGLES" 1].
Proof.
  intros s this e.
  assert (H : "TRIANGLES"%string <> "LINES"%string) by discriminate.
  destruct (addVertex_extends_or_starts_run
              this e s "TRIANGLES" "LINES" "POINTS" (Fin 0, Fin 0, Fin 0) H)
    as (_ & Hnew & Hex).
  split; [exact H|]. split; [|exact Hex].
  apply Hnew. intros [|a [|b h']] n; discriminate.
Defined.

(** ** Rendering *)

Lemma drawEach_length (h : list entry) (start : option Z) :
  length (fst (drawEach h start)) = length h.
Proof.
  revert start. induction h as [|e h IH]; intros start; [reflexivity|].
  simpl. specialize (IH (addLength start (entry_vertLength e))).
  destruct (drawEach h _). simpl in *. now rewrite IH.
Qed.

Lemma drawEach_runs_nth (runs : list (string * Z)) (start : Z)
      (i : nat) (m : string) (n : Z) :
  nth_error runs i = Some (m, n) ->
  nth_error (fst (drawEach (runsLedger runs) (Some start))) i
  = Some (DrawArrays (Some m) (Some (start + totalLength (firstn i runs)))
                     (Some n)).
Proof.
  revert start i. induction runs as [|[m' n'] runs IH]; intros start i Hi.
  - now destruct i.
  - simpl. specialize (IH (start + n')).
    destruct (drawEach (runsLedger runs) (Some (start + n'))) as [calls final].
    destruct i as [|i]; simpl in *.
    + injection Hi as -> ->. now rewrite Z.add_0_r.
    + rewrite (IH i Hi). now rewrite Z.add_assoc.
Qed.

Lemma drawEach_runs_final (runs : list (string * Z)) (start : Z) :
  snd (drawEach (runsLedger runs) (Some start))
  = Some (start + totalLength runs).
Proof.
  revert start. induction runs as [|[m n] runs IH]; intros start; simpl.
  - now rewrite Z.add_0_r.
  - specialize (IH (start + n)).
    destruct (drawEach (runsLedger runs) (Some (start + n))).
    simpl in *. now rewrite IH, Z.add_assoc.
Qed.

(** C7: on a ledger of runs a render pass clears the surface and then makes
    one draw call per run, in ledger order; the call for run number [i] has
    that run's mode and length and starts at the sum of the lengths of the
    runs before it; the running index ends on the sum of all lengths.  For
    [{POINTS,3}, {LINES,4}] the calls are (POINTS, 0, 3) and (LINES, 3, 4) and
    the index ends on 7. *)
Theorem render_one_call_per_run (g : WebGLContext) (runs : list (string * Z)) :
  let calls := fst (drawEach (runsLedger runs) (Some 0)) in
  let final := snd (drawEach (runsLedger runs) (Some 0)) in
  snd (render (mkState g (runsLedger runs))) = Clear :: calls
  /\ length calls = length runs
  /\ (forall i m n,
         nth_error runs i = Some (m, n) ->
         nth_error calls i
         = Some (DrawArrays (Some m) (Some (totalLength (firstn i runs)))
                            (Some n)))
  /\ final = Some (totalLength runs)
  /\ drawEach [Run "POINTS" 3; Run "LINES" 4] (Some 0)
     = ([DrawArrays (Some "POINTS"%string) (Some 0) (Some 3);
         DrawArrays (Some "LINES"%string) (Some 3) (Some 4)],
        Some 7).
Proof.
  intros calls final. subst calls final. repeat split.
  - rewrite drawEach_length. apply length_map.
  - intros i m n Hi. now rewrite (drawEach_runs_nth runs 0 i m n Hi).
  - now rewrite drawEach_runs_final.
Qed.

Lemma render_one_call_per_run_witness :
  nth_error [("POINTS"%string, 3); ("LINES"%string, 4)] 1
  = Some ("LINES"%string, 4)
  /\ nth_error
       (fst (drawEach (runsLedger [("POINTS"%string, 3); ("LINES"%string, 4)])
                      (Some 0))) 1
     = Some (DrawArrays (Some "LINES"%string) (Some 3) (Some 4)).
Proof.
  split; [reflexivity|].
  exact (proj1 (proj2 (proj2
           (render_one_call_per_run
              (mkGL 0 0 [] [] None false "POINTS" (Fin 0, Fin 0, Fin 0))
              [("POINTS"%string, 3); ("LINES"%string, 4)])))
           1%nat "LINES"%string 4 eq_refl).
Defined.

Lemma render_dataModel (s : state) :
  dataModel (fst (render s)) = dataModel s.
Proof. reflexivity. Qed.

Lemma render_calls_again (s : state) :
  snd (render (fst (render s))) = snd (render s).
Proof. reflexivity. Qed.

Lemma renderTimes_succ (k : nat) (s : state) :
  renderTimes (S k) s
  = (fst (renderTimes k (fst (render s))),
     snd (render s) :: snd (renderTimes k (fst (render s)))).
Proof.
  cbn [renderTimes]. destruct (render s) as [s1 calls].
  cbn [fst snd]. now destruct (renderTimes k s1).
Qed.

(** C9: a render pass leaves the ledger, both stores and both offsets (and
    the mode and the colour) as they were, and any number of passes in a row
    make the same calls every time. *)
Theorem render_leaves_data_model (s : state) (k : nat) :
  dataModel (fst (render s)) = dataModel s
  /\ drawingMode (gl (fst (render s))) = drawingMode (gl s)
  /\ drawingColor (gl (fst (render s))) = drawingColor (gl s)
  /\ dataModel (fst (renderTimes k s)) = dataModel s
  /\ snd (renderTimes k s) = repeat (snd (render s)) k.
Proof.
  repeat split.
  - revert s. induction k as [|k IH]; intros s; [reflexivity|].
    rewrite renderTimes_succ. cbn [fst].
    now rewrite IH, render_dataModel.
  - revert s. induction k as [|k IH]; intros s; [reflexivity|].
    rewrite renderTimes_succ. cbn [snd repeat].
    now rewrite IH, render_calls_again.
Qed.

(** ** The data stores *)

Lemma Float32Array_new_length (n : Z) :
  length (Float32Array_new n) = Z.to_nat n.
Proof. apply repeat_length. Qed.

Lemma writeStore_length (store : list number) (off : Z) (src : list number) :
  length (GL.writeStore store off src) = length store.
Proof.
  unfold GL.writeStore, BYTES_PER_ELEMENT.
  destruct (off <? 0) eqn:Eneg; [reflexivity|]. cbn [orb].
  destruct (4 * Z.of_nat (length store) <? off + 4 * Z.of_nat (length src))
    eqn:Efit; [reflexivity|].
  apply Z.ltb_ge in Eneg, Efit.
  assert (off / 4 <= Z.of_nat (length store) - Z.of_nat (length src))
    by (apply Z.div_le_upper_bound; lia).
  assert (0 <= off / 4) by (apply Z.div_pos; lia).
  rewrite !length_app, length_firstn, length_skipn. lia.
Qed.

Lemma writeStore_refused (store : list number) (off : Z) (src : list number) :
  BYTES_PER_ELEMENT * Z.of_nat (length store)
  < off + BYTES_PER_ELEMENT * Z.of_nat (length src) ->
  GL.writeStore store off src = store.
Proof.
  intros H. unfold GL.writeStore.
  apply Z.ltb_lt in H. rewrite H. now rewrite orb_true_r.
Qed.

Lemma writeStore_at (store : list number) (k : nat) (src : list number) :
  (k + length src <= length store)%nat ->
  GL.writeStore store (BYTES_PER_ELEMENT * Z.of_nat k) src
  = firstn k store ++ src ++ skipn (k + length src) store.
Proof.
  intros H. unfold GL.writeStore, BYTES_PER_ELEMENT.
  destruct (_ <? 0) eqn:Eneg; [apply Z.ltb_lt in Eneg; lia|].
  destruct (_ <? _ + _) eqn:Efit; [apply Z.ltb_lt in Efit; lia|].
  cbn [orb]. rewrite Z.mul_comm, Z.div_mul by discriminate.
  now rewrite Nat2Z.id.
Qed.

Lemma written_prefix (store : list number) (k : nat) (src : list number) :
  (k + length src <= length store)%nat ->
  firstn (k + length src)
         (GL.writeStore store (BYTES_PER_ELEMENT * Z.of_nat k) src)
  = firstn k store ++ src.
Proof.
  intros H. rewrite writeStore_at by assumption.
  assert (Hk : length (firstn k store) = k) by (rewrite length_firstn; lia).
  rewrite <- Hk at 1. rewrite firstn_app_2.
  now rewrite firstn_app, firstn_all, Nat.sub_diag, firstn_O, app_nil_r.
Qed.


Lemma readStore_prefix (store : list number) (n : Z) :
  (Z.to_nat n <= length store)%nat ->
  GL.readStore store (Float32Array_new n) = firstn (Z.to_nat n) store.
Proof.
  intros H. unfold GL.readStore, BYTES_PER_ELEMENT.
  rewrite Float32Array_new_length.
  destruct (_ <? _) eqn:E; [apply Z.ltb_lt in E; lia|reflexivity].
Qed.

(** ** Allocated states that hold [n] vertices *)

Lemma allocated_init (mode : string) (color : number * number * number) :
  allocated (init mode color).
Proof.
  unfold allocated, init, initBuffers. cbn [gl posBuffer colorBuffer].
  rewrite !Float32Array_new_length. unfold MAX_VERTICES. lia.
Qed.

Lemma holdsVertices_init (mode : string) (color : number * number * number) :
  holdsVertices (init mode color) 0.
Proof. split; [apply Z.le_refl|split; reflexivity]. Qed.

Lemma holdsVertices_count (s : state) (n : Z) :
  holdsVertices s n -> vertexCount s = n.
Proof.
  intros (_ & Hpos & _). unfold vertexCount. rewrite Hpos.
  rewrite Z.mul_comm. apply Z.div_mul. discriminate.
Qed.

Lemma allocated_handle (s : state) (ev : event) :
  allocated s -> allocated (handle s ev).
Proof.
  intros [Hp Hc]. destruct ev; unfold handle; [|now split..].
  rewrite addVertex_state. unfold allocated. cbn [gl posBuffer colorBuffer].
  now rewrite !writeStore_length.
Qed.

Lemma clicks_nonneg (events : list event) : 0 <= clicks events.
Proof.
  induction events as [|ev events IH]; [|destruct ev]; cbn [clicks]; lia.
Qed.

Lemma holdsVertices_handle (s : state) (n : Z) (ev : event) :
  holdsVertices s n -> holdsVertices (handle s ev) (n + clicks [ev]).
Proof.
  intros (Hn & Hp & Hc). destruct (handle_offsets s ev) as [Ep Ec].
  unfold holdsVertices. rewrite Ep, Ec.
  destruct ev; cbn [clicks]; unfold BYTES_PER_ELEMENT in *; lia.
Qed.

Lemma handleAll_allocated_holds (events : list event) (s : state) (n : Z) :
  allocated s -> holdsVertices s n ->
  allocated (handleAll events s)
  /\ holdsVertices (handleAll events s) (n + clicks events).
Proof.
  revert s n. induction events as [|ev events IH]; intros s n Ha Hn.
  - simpl. now rewrite Z.add_0_r.
  - simpl handleAll.
    destruct (IH (handle s ev) (n + clicks [ev])
                 (allocated_handle s ev Ha) (holdsVertices_handle s n ev Hn))
      as [Ha' Hn'].
    split; [exact Ha'|].
    replace (n + clicks (ev :: events)) with (n + clicks [ev] + clicks events);
      [exact Hn'|].
    destruct ev; cbn [clicks]; lia.
Qed.

(** ** Window coordinates to clip coordinates *)

Lemma Qeq_bool_inject_Z_pos (w : Z) :
  0 < w -> Qeq_bool (inject_Z w) 0 = false.
Proof.
  intros Hw. destruct (Qeq_bool (inject_Z w) 0) eqn:E; [|reflexivity].
  apply Qeq_bool_eq in E. unfold Qeq in E. simpl in E. lia.
Qed.


Lemma clipCoordinates_finite (x y : Q) (w h : Z) :
  0 < w -> 0 < h ->
  clipCoordinates x y w h
  = [Fin (2 * x / inject_Z w - 1)%Q; Fin (1 - 2 * y / inject_Z h)%Q].
Proof.
  intros Hw Hh. unfold clipCoordinates, number_div, number_sub.
  now rewrite !Qeq_bool_inject_Z_pos.
Qed.


(** With IEEE rounding, on a canvas of 300 by 150 pixels: the corners and
    the centre are converted exactly. *)
Example binary64_corners_and_centre :
  Binary64.clipCoordinates 0 0 300 150
  = map Binary64.toBinary32 [Binary64.ofZ (-1); Binary64.ofZ 1]
  /\ Binary64.clipCoordinates 300 150 300 150
     = map Binary64.toBinary32 [Binary64.ofZ 1; Binary64.ofZ (-1)]
  /\ Binary64.clipCoordinates 150 75 300 150
     = [S754_zero false; S754_zero false].
Proof. repeat split; vm_compute; reflexivity. Qed.

(** The conversion of this development agrees with IEEE 754 arithmetic,
    the rounding of the binary64 operations included, on every pixel column
    and every pixel row of a canvas of 300 by 150 pixels. *)
Example binary64_agrees_on_a_canvas :
  map (fun x => map Binary64.value (Binary64.clipCoordinates x 0 300 150))
      (map Z.of_nat (seq 0 301))
  = map (fun x => Float32Array_from_numbers
                    (clipCoordinates (inject_Z x) 0 300 150))
        (map Z.of_nat (seq 0 301))
  /\ map (fun y => map Binary64.value (Binary64.clipCoordinates 0 y 300 150))
         (map Z.of_nat (seq 0 151))
     = map (fun y => Float32Array_from_numbers
                       (clipCoordinates 0 (inject_Z y) 300 150))
           (map Z.of_nat (seq 0 151)).
Proof. split; vm_compute; reflexivity. Qed.



Lemma toFloat32_zero : toFloat32 (Fin 0) = Fin 0.
Proof. vm_compute. reflexivity. Qed.

Lemma clip_x_in_unit_range (x : Q) (w : Z) :
  0 < w -> (0 <= x <= inject_Z w)%Q ->
  (Qabs (2 * x / inject_Z w - 1) <= 1)%Q.
Proof.
  intros Hw [H0 H1].
  assert (Hq : (0 < inject_Z w)%Q)
    by (change 0%Q with (inject_Z 0); now rewrite <- Zlt_Qlt).
  assert (Hd : (0 <= x / inject_Z w <= 1)%Q).
  { split.
    - apply Qle_shift_div_l; [exact Hq|]. now rewrite Qmult_0_l.
    - apply Qle_shift_div_r; [exact Hq|]. now rewrite Qmult_1_l. }
  apply Qabs_Qle_condition.
  setoid_replace (2 * x / inject_Z w - 1)%Q
    with (2 * (x / inject_Z w) - 1)%Q
    by (field; intros E; rewrite E in Hq; discriminate).
  split; lra.
Qed.

Lemma clip_y_in_unit_range (y : Q) (h : Z) :
  0 < h -> (0 <= y <= inject_Z h)%Q ->
  (Qabs (1 - 2 * y / inject_Z h) <= 1)%Q.
Proof.
  intros Hh Hy.
  pose proof (clip_x_in_unit_range y h Hh Hy) as H.
  rewrite <- Qabs_opp.
  setoid_replace (- (1 - 2 * y / inject_Z h))%Q
    with (2 * y / inject_Z h - 1)%Q by ring.
  exact H.
Qed.





(** ** A click when both buffers are full *)

Lemma clicks_repeat (this : Canvas) (e : MouseEvent) (k : nat) :
  clicks (repeat (Click this e) k) = Z.of_nat k.
Proof. induction k as [|k IH]; [reflexivity|]. cbn [repeat clicks]. lia. Qed.

Lemma addVertex_at_capacity (this : Canvas) (e : MouseEvent) (s : state) :
  allocated s -> holdsVertices s MAX_VERTICES ->
  let s' := fst (addVertex this e s) in
  posBuffer (gl s') = posBuffer (gl s)
  /\ colorBuffer (gl s') = colorBuffer (gl s)
  /\ drawingHistory s'
     = recordVertex (drawingMode (gl s)) (drawingHistory s)
  /\ holdsVertices s' (MAX_VERTICES + 1).
Proof.
  intros [Hp Hc] (Hn & Hpos & Hcol) s'. subst s'.
  rewrite addVertex_state. cbn [gl posBuffer colorBuffer drawingHistory].
  unfold holdsVertices.
  cbn [gl currentCoordByteOffset currentColorByteOffset].
  rewrite Hpos, Hcol.
  unfold MAX_VERTICES, BYTES_PER_ELEMENT in *.
  repeat split; try lia.
  - apply writeStore_refused. unfold BYTES_PER_ELEMENT.
    rewrite converted_position_length. lia.
  - apply writeStore_refused. unfold BYTES_PER_ELEMENT.
    rewrite converted_color_length. lia.
Qed.

(** C4, as the code has it: there is no capacity check and no error.  When
    the state holds MAX_VERTICES vertices a click is handled like any other:
    the ledger records the vertex and both offsets advance, so the vertex
    count becomes MAX_VERTICES + 1 and still equals the sum of the run
    lengths when it did before; only the two writes into the full buffers
    are refused, so the stored positions and colours stay as they were. *)
Theorem append_at_capacity_is_not_rejected
        (this : Canvas) (e : MouseEvent) (s : state) :
  allocated s -> holdsVertices s MAX_VERTICES ->
  let s' := fst (addVertex this e s) in
  posBuffer (gl s') = posBuffer (gl s)
  /\ colorBuffer (gl s') = colorBuffer (gl s)
  /\ drawingHistory s'
     = recordVertex (drawingMode (gl s)) (drawingHistory s)
  /\ totalVertices (drawingHistory s') = totalVertices (drawingHistory s) + 1
  /\ currentCoordByteOffset (gl s')
     = currentCoordByteOffset (gl s) + 2 * BYTES_PER_ELEMENT
  /\ currentColorByteOffset (gl s')
     = currentColorByteOffset (gl s) + 3 * BYTES_PER_ELEMENT
  /\ vertexCount s' = MAX_VERTICES + 1.
Proof.
  intros Ha Hn s'.
  destruct (addVertex_at_capacity this e s Ha Hn) as (Hp & Hc & Hh & Hn').
  fold s' in Hp, Hc, Hh, Hn'.
  destruct (handle_offsets s (Click this e)) as [Hpos Hcol].
  cbn [handle] in Hpos, Hcol. fold s' in Hpos, Hcol.
  split; [exact Hp|]. split; [exact Hc|]. split; [exact Hh|].
  split; [rewrite Hh; apply totalVertices_recordVertex|].
  split; [exact Hpos|]. split; [exact Hcol|].
  now apply holdsVertices_count.
Qed.

Lemma full_session (this : Canvas) (e : MouseEvent)
      (mode : string) (color : number * number * number) :
  let s := handleAll (repeat (Click this e) (Z.to_nat MAX_VERTICES))
                     (init mode color) in
  allocated s /\ holdsVertices s MAX_VERTICES.
Proof.
  intros s.
  destruct (handleAll_allocated_holds
              (repeat (Click this e) (Z.to_nat MAX_VERTICES))
              (init mode color) 0
              (allocated_init mode color) (holdsVertices_init mode color))
    as [Ha Hn].
  split; [exact Ha|].
  rewrite clicks_repeat in Hn.
  replace (0 + Z.of_nat (Z.to_nat MAX_VERTICES)) with MAX_VERTICES in Hn
    by (unfold MAX_VERTICES; lia).
  exact Hn.
Qed.

Lemma append_at_capacity_is_not_rejected_witness :
  let this := mkCanvas 300 150 in
  let e := mkClick 10 20 in
  let s := handleAll (repeat (Click this e) (Z.to_nat MAX_VERTICES))
                     (init "POINTS" (Fin 0, Fin 0, Fin 0)) in
  (allocated s /\ holdsVertices s MAX_VERTICES)
  /\ posBuffer (gl (fst (addVertex this e s))) = posBuffer (gl s)
  /\ vertexCount (fst (addVertex this e s)) = MAX_VERTICES + 1.
Proof.
  intros this e s.
  pose proof (full_session this e "POINTS" (Fin 0, Fin 0, Fin 0)) as Hfull.
  split; [exact Hfull|].
  destruct Hfull as [Ha Hn].
  destruct (append_at_capacity_is_not_rejected this e s Ha Hn)
    as (Hp & _ & _ & _ & _ & _ & Hcount).
  split; [exact Hp|exact Hcount].
Defined.

(** After MAX_VERTICES clicks one more click is not rejected: the vertex
    count goes to MAX_VERTICES + 1 and the ledger changes. *)
Lemma click_on_full_buffers_changes_state :
  let this := mkCanvas 300 150 in
  let e := mkClick 10 20 in
  let s := handleAll (repeat (Click this e) (Z.to_nat MAX_VERTICES))
                     (init "POINTS" (Fin 0, Fin 0, Fin 0)) in
  let s' := fst (addVertex this e s) in
  vertexCount s = MAX_VERTICES
  /\ ~ (vertexCount s' = MAX_VERTICES /\ dataModel s' = dataModel s).
Proof.
  intros this e s s'.
  destruct (full_session this e "POINTS" (Fin 0, Fin 0, Fin 0)) as [Ha Hn].
  fold s in Ha, Hn.
  split; [now apply holdsVertices_count|].
  destruct (addVertex_at_capacity this e s Ha Hn) as (_ & _ & _ & Hn').
  fold s' in Hn'. apply holdsVertices_count in Hn'.
  intros [Hcount _]. rewrite Hn' in Hcount. unfold MAX_VERTICES in Hcount. lia.
Qed.

(** ** Saving *)

Lemma downloadDrawing_history (s : state) :
  drawingHistory (fst (downloadDrawing s))
  = drawingHistory s
    ++ [F32 (GL.readStore (posBuffer (gl s))
               (Float32Array_new
                  (currentCoordByteOffset (gl s) / BYTES_PER_ELEMENT)));
        F32 (GL.readStore (colorBuffer (gl s))
               (Float32Array_new
                  (currentColorByteOffset (gl s) / BYTES_PER_ELEMENT)))].
Proof. reflexivity. Qed.

Lemma downloadDrawing_file (s : state) :
  snd (downloadDrawing s)
  = JSON_stringify (drawingHistory s)
    ++ [JSeq (map numberToJSON
                (GL.readStore (posBuffer (gl s))
                   (Float32Array_new
                      (currentCoordByteOffset (gl s) / BYTES_PER_ELEMENT))));
        JSeq (map numberToJSON
                (GL.readStore (colorBuffer (gl s))
                   (Float32Array_new
                      (currentColorByteOffset (gl s) / BYTES_PER_ELEMENT))))].
Proof.
  unfold downloadDrawing, JSON_stringify. cbn [snd]. now rewrite map_app.
Qed.

Lemma downloadDrawing_gl (s : state) :
  gl (fst (downloadDrawing s)) = GL.bindBuffer None (gl s).
Proof. reflexivity. Qed.

Lemma offsets_in_floats (s : state) (n : Z) :
  holdsVertices s n ->
  currentCoordByteOffset (gl s) / BYTES_PER_ELEMENT = 2 * n
  /\ currentColorByteOffset (gl s) / BYTES_PER_ELEMENT = 3 * n.
Proof.
  intros (_ & -> & ->). unfold BYTES_PER_ELEMENT.
  replace (2 * 4 * n) with (2 * n * 4) by lia.
  replace (3 * 4 * n) with (3 * n * 4) by lia.
  now rewrite !Z.div_mul.
Qed.

Lemma withinBuffers_holds (s : state) (n : Z) :
  allocated s -> holdsVertices s n -> n <= MAX_VERTICES -> withinBuffers s.
Proof.
  intros [Hp Hc] Hn Hmax. destruct (offsets_in_floats s n Hn) as [Ep Ec].
  destruct Hn as (Hn & _). unfold withinBuffers. rewrite Ep, Ec.
  unfold MAX_VERTICES in *. lia.
Qed.

Lemma downloaded_arrays (s : state) :
  withinBuffers s ->
  snd (downloadDrawing s)
  = JSON_stringify (drawingHistory s)
    ++ [JSeq (map numberToJSON (exportPositions s));
        JSeq (map numberToJSON (exportColors s))].
Proof.
  intros [Hp Hc]. rewrite downloadDrawing_file.
  now rewrite !readStore_prefix.
Qed.


Lemma one_click_session (this : Canvas) (e : MouseEvent) :
  let s := handleAll [Click this e] (init "POINTS" (Fin 0, Fin 0, Fin 0)) in
  drawingHistory s = runsLedger [("POINTS"%string, 1)]
  /\ allocated s /\ holdsVertices s 1 /\ withinBuffers s.
Proof.
  intros s.
  destruct (handleAll_allocated_holds
              [Click this e] (init "POINTS" (Fin 0, Fin 0, Fin 0)) 0
              (allocated_init _ _) (holdsVertices_init _ _)) as [Ha Hn].
  fold s in Ha, Hn. change (0 + clicks [Click this e]) with 1 in Hn.
  split; [|split; [exact Ha|split; [exact Hn|]]].
  - subst s. cbn [handleAll fold_left]. now rewrite handle_history.
  - apply (withinBuffers_holds s 1 Ha Hn). discriminate.
Qed.

Lemma withinBuffers_download (s : state) :
  withinBuffers s -> withinBuffers (fst (downloadDrawing s)).
Proof. intros H. exact H. Qed.

Lemma exports_download (s : state) :
  exportPositions (fst (downloadDrawing s)) = exportPositions s
  /\ exportColors (fst (downloadDrawing s)) = exportColors s.
Proof. split; reflexivity. Qed.

(** ** Loading *)

Lemma lastEntry_snoc2 (h : list entry) (a b : entry) :
  lastEntry (h ++ [a; b]) = Some b.
Proof.
  change [a; b] with ([a] ++ [b]). rewrite app_assoc. apply lastEntry_snoc.
Qed.

Lemma removelast_snoc2 (h : list entry) (a b : entry) :
  removelast (h ++ [a; b]) = h ++ [a].
Proof.
  change [a; b] with ([a] ++ [b]). rewrite app_assoc. apply removelast_last.
Qed.

Section UploadFacts.

Variable StringToNumber : string -> number.

Lemma from_values_of_sequence (values : list (option Q)) :
  Float32Array_from StringToNumber (Object_values (Seq values))
  = map jsonToNumber values.
Proof.
  unfold Float32Array_from, Float32Array_from_numbers, Object_values.
  rewrite !map_map. apply map_ext. now intros [q|].
Qed.

Lemma length_values_of_sequence (values : list (option Q)) :
  length (Object_values (Seq values)) = length values.
Proof. apply length_map. Qed.

(** What a load does when the file ends with two sequences. *)
Lemma uploadDrawing_sequences
      (records : list jsonEntry) (ps cs : list (option Q)) (s : state) :
  uploadDrawing StringToNumber (records ++ [JSeq ps; JSeq cs]) s
  = Returned
      (mkState
         (mkGL (Z.of_nat (length ps) * BYTES_PER_ELEMENT)
               (Z.of_nat (length cs) * BYTES_PER_ELEMENT)
               (GL.writeStore (posBuffer (gl s)) 0 (map jsonToNumber ps))
               (GL.writeStore (colorBuffer (gl s)) 0 (map jsonToNumber cs))
               (Some ColorBuffer) false
               (drawingMode (gl s)) (drawingColor (gl s)))
         (JSON_parse records))
      (Clear :: fst (drawEach (JSON_parse records) (Some 0))).
Proof.
  unfold uploadDrawing, JSON_parse. rewrite map_app.
  cbn [map parseEntry].
  rewrite lastEntry_snoc2, removelast_snoc2.
  rewrite lastEntry_snoc, removelast_last.
  rewrite !from_values_of_sequence, !length_values_of_sequence.
  reflexivity.
Qed.

End UploadFacts.

Lemma written_from_zero (store src : list number) :
  (length src <= length store)%nat ->
  firstn (length src) (GL.writeStore store 0 src) = src.
Proof.
  intros H. apply (written_prefix store 0 src H).
Qed.

(** C5, as the code has it: a load checks nothing.  Whatever the lengths of
    the last two sequences of the file (odd, or giving different vertex
    counts), as long as they fit in the buffers the load returns normally,
    makes the entries before them the ledger, writes the two sequences at
    the start of the two buffers and sets each offset to four times the
    length of its sequence. *)
Theorem load_does_not_validate
        (StringToNumber : string -> number)
        (records : list jsonEntry) (ps cs : list (option Q)) (s : state) :
  allocated s ->
  Z.of_nat (length ps) <= MAX_VERTICES * 2 ->
  Z.of_nat (length cs) <= MAX_VERTICES * 3 ->
  exists loaded calls,
    uploadDrawing StringToNumber (records ++ [JSeq ps; JSeq cs]) s
    = Returned loaded calls
    /\ drawingHistory loaded = JSON_parse records
    /\ currentCoordByteOffset (gl loaded)
       = Z.of_nat (length ps) * BYTES_PER_ELEMENT
    /\ currentColorByteOffset (gl loaded)
       = Z.of_nat (length cs) * BYTES_PER_ELEMENT
    /\ exportPositions loaded = map jsonToNumber ps
    /\ exportColors loaded = map jsonToNumber cs.
Proof.
  intros [Hp Hc] Hps Hcs.
  eexists _, _. split; [apply uploadDrawing_sequences|].
  unfold exportPositions, exportColors.
  cbn [gl drawingHistory currentCoordByteOffset currentColorByteOffset
       posBuffer colorBuffer].
  rewrite !Z.div_mul by discriminate. rewrite !Nat2Z.id.
  repeat split.
  - rewrite <- (length_map jsonToNumber ps) at 1.
    apply written_from_zero. rewrite length_map. lia.
  - rewrite <- (length_map jsonToNumber cs) at 1.
    apply written_from_zero. rewrite length_map. lia.
Qed.

Lemma load_does_not_validate_witness :
  let s := init "POINTS" (Fin 0, Fin 0, Fin 0) in
  exists loaded calls,
    uploadDrawing (fun _ => NaN) [JSeq [Some 1%Q]; JSeq []] s
    = Returned loaded calls
    /\ currentCoordByteOffset (gl loaded) = 4
    /\ currentColorByteOffset (gl loaded) = 0
    /\ exportPositions loaded = [Fin 1].
Proof.
  intros s.
  assert (Hps : Z.of_nat (length [Some 1%Q]) <= MAX_VERTICES * 2)
    by discriminate.
  assert (Hcs : Z.of_nat (length (@nil (option Q))) <= MAX_VERTICES * 3)
    by discriminate.
  destruct (load_does_not_validate
              (fun _ => NaN) [] [Some 1%Q] [] s
              (allocated_init _ _) Hps Hcs)
    as (loaded & calls & Hload & _ & Hpos & Hcol & Hexp & _).
  exists loaded, calls.
  exact (conj Hload (conj Hpos (conj Hcol Hexp))).
Defined.

(** A file whose position sequence has one element (an odd length, and a
    vertex count that differs from the one of its empty colour sequence) is
    loaded: the handler returns and the state has changed. *)
Lemma malformed_snapshot_is_loaded :
  let s := init "POINTS" (Fin 0, Fin 0, Fin 0) in
  let file := [JSeq [Some 1%Q]; JSeq []] in
  exists loaded calls,
    uploadDrawing (fun _ => NaN) file s = Returned loaded calls
    /\ dataModel loaded <> dataModel s.
Proof.
  intros s file.
  eexists _, _. split; [apply (uploadDrawing_sequences _ [] [Some 1%Q] [])|].
  intros E. apply (f_equal (fun d => snd (fst d))) in E. discriminate E.
Qed.

(** ** Saving, then loading *)

Lemma closeTo_refl (data : list number) :
  allFinite data -> Forall2 closeTo data data.
Proof.
  induction 1 as [|x data Hx _ IH]; constructor; [|exact IH].
  destruct x as [q| | |]; try discriminate. unfold closeTo.
  setoid_replace (q - q)%Q with 0%Q by ring. discriminate.
Qed.

Lemma json_number_round_trip (data : list number) :
  allFinite data -> allFloat32 data ->
  map jsonToNumber (map numberToJSON data) = data.
Proof.
  induction 1 as [|x data Hx _ IH]; [reflexivity|].
  intros Hf. apply Forall_cons_iff in Hf as [Hfx Hf].
  cbn [map]. rewrite (IH Hf).
  destruct x as [q| | |]; try discriminate Hx.
  unfold jsonToNumber, numberToJSON. now rewrite Hfx.
Qed.

Lemma parse_stringify_runs (h : list entry) :
  forallb isRun h = true -> JSON_parse (JSON_stringify h) = h.
Proof.
  unfold JSON_parse, JSON_stringify.
  induction h as [|e h IH]; [reflexivity|].
  intros [He Hh]%andb_prop. cbn [map]. rewrite (IH Hh).
  now destruct e.
Qed.

Lemma addVertex_exports (this : Canvas) (e : MouseEvent) (s : state) (n : Z) :
  allocated s -> holdsVertices s n -> n < MAX_VERTICES ->
  let s' := fst (addVertex this e s) in
  exportPositions s'
  = exportPositions s
    ++ Float32Array_from_numbers
         (clipCoordinates (offsetX e) (offsetY e)
                          (offsetWidth this) (offsetHeight this))
  /\ exportColors s'
     = exportColors s
       ++ Float32Array_from_numbers (colorComponents (drawingColor (gl s))).
Proof.
  intros [Hp Hc] Hn Hmax s'.
  destruct (offsets_in_floats s n Hn) as [Ep Ec].
  destruct (offsets_in_floats s' (n + 1)) as [Ep' Ec'].
  { apply (holdsVertices_handle s n (Click this e) Hn). }
  unfold exportPositions, exportColors. rewrite Ep, Ec, Ep', Ec'.
  destruct Hn as (Hn & Hpos & Hcol). subst s'. rewrite addVertex_state.
  cbn [gl posBuffer colorBuffer]. rewrite Hpos, Hcol.
  unfold MAX_VERTICES in *. split.
  - replace (2 * BYTES_PER_ELEMENT * n)
      with (BYTES_PER_ELEMENT * Z.of_nat (Z.to_nat (2 * n)))
      by (unfold BYTES_PER_ELEMENT; lia).
    replace (Z.to_nat (2 * (n + 1)))
      with (Z.to_nat (2 * n)
            + length (Float32Array_from_numbers
                        (clipCoordinates (offsetX e) (offsetY e)
                           (offsetWidth this) (offsetHeight this))))%nat
      by (rewrite converted_position_length; lia).
    apply written_prefix. rewrite converted_position_length. lia.
  - replace (3 * BYTES_PER_ELEMENT * n)
      with (BYTES_PER_ELEMENT * Z.of_nat (Z.to_nat (3 * n)))
      by (unfold BYTES_PER_ELEMENT; lia).
    replace (Z.to_nat (3 * (n + 1)))
      with (Z.to_nat (3 * n)
            + length (Float32Array_from_numbers
                        (colorComponents (drawingColor (gl s)))))%nat
      by (rewrite converted_color_length; lia).
    apply written_prefix. rewrite converted_color_length. lia.
Qed.

Lemma sound_init (mode : string) (color : number * number * number) :
  storableColor color = true -> sound (init mode color) 0.
Proof.
  intros Hc. unfold sound.
  split; [apply allocated_init|]. split; [apply holdsVertices_init|].
  split; [apply inStep_init|].
  unfold exportPositions, exportColors.
  cbn [init gl initBuffers currentCoordByteOffset currentColorByteOffset
       drawingColor].
  change (Z.to_nat (0 / BYTES_PER_ELEMENT)) with 0%nat.
  rewrite !firstn_O. repeat split; try constructor. exact Hc.
Qed.

Lemma converted_allFloat32 (data : list number) :
  allFloat32 (Float32Array_from_numbers data).
Proof.
  unfold allFloat32, Float32Array_from_numbers.
  apply Forall_map, Forall_forall. intros x _. apply toFloat32_idempotent.
Qed.

Lemma converted_allFinite (data : list number) :
  forallb storable data = true ->
  allFinite (Float32Array_from_numbers data).
Proof.
  unfold allFinite, Float32Array_from_numbers. intros H.
  apply Forall_map, Forall_forall. intros x Hx.
  rewrite forallb_forall in H. exact (H x Hx).
Qed.

Lemma storable_colorComponents (c : number * number * number) :
  storableColor c = true -> forallb storable (colorComponents c) = true.
Proof.
  destruct c as [[r g] b]. cbn [storableColor colorComponents forallb].
  intros [[Hr Hg]%andb_prop Hb]%andb_prop.
  now rewrite Hr, Hg, Hb.
Qed.

(** A number between -1 and 1 is stored as a finite number. *)
Lemma storable_in_unit_range (q : Q) :
  (Qabs q <= 1)%Q -> storable (Fin q) = true.
Proof.
  intros H. unfold storable.
  destruct (toFloat32_unit_range q H) as (r & -> & _). reflexivity.
Qed.

(** The colours that the colour input can give, with components between 0
    and 1, and the clicks inside a canvas are events of an ordinary
    session. *)
Lemma unitColor_storable (c : number * number * number) :
  unitColor c = true -> storableColor c = true.
Proof.
  assert (H : forall x, unitComponent x = true -> storable x = true).
  { intros [q| | |]; try discriminate. cbn [unitComponent].
    intros [H0%Qle_bool_iff H1%Qle_bool_iff]%andb_prop.
    apply storable_in_unit_range, Qabs_Qle_condition. split; lra. }
  destruct c as [[r g] b]. cbn [unitColor storableColor].
  intros [[Hr Hg]%andb_prop Hb]%andb_prop.
  now rewrite (H r Hr), (H g Hg), (H b Hb).
Qed.

Lemma click_inside_is_ordinary (this : Canvas) (e : MouseEvent) :
  0 < offsetWidth this -> 0 < offsetHeight this ->
  insideCanvas this e = true ->
  ordinaryEvent (Click this e) = true.
Proof.
  intros Hw Hh Hin. unfold insideCanvas in Hin.
  apply andb_prop in Hin as [Hin Hy1%Qle_bool_iff].
  apply andb_prop in Hin as [Hin Hy0%Qle_bool_iff].
  apply andb_prop in Hin as [Hx0%Qle_bool_iff Hx1%Qle_bool_iff].
  cbn [ordinaryEvent].
  rewrite (proj2 (Z.ltb_lt _ _) Hw), (proj2 (Z.ltb_lt _ _) Hh).
  rewrite clipCoordinates_finite by assumption.
  cbn [andb forallb].
  rewrite (storable_in_unit_range _ (clip_x_in_unit_range _ _ Hw (conj Hx0 Hx1))).
  rewrite (storable_in_unit_range _ (clip_y_in_unit_range _ _ Hh (conj Hy0 Hy1))).
  reflexivity.
Qed.

Lemma sound_handle (s : state) (n : Z) (ev : event) :
  sound s n -> ordinaryEvent ev = true -> n + clicks [ev] <= MAX_VERTICES ->
  sound (handle s ev) (n + clicks [ev]).
Proof.
  intros (Ha & Hn & Hstep & Hfp & Hfc & Hbp & Hbc & Hcol) Hev Hmax.
  unfold sound.
  split; [now apply allocated_handle|].
  split; [now apply holdsVertices_handle|].
  split; [now apply inStep_handle|].
  destruct ev as [this e|value|c]; cbn [ordinaryEvent clicks handle] in *.
  - apply andb_prop in Hev as [_ Hst].
    destruct (addVertex_exports this e s n Ha Hn ltac:(lia)) as [-> ->].
    rewrite addVertex_state. cbn [gl drawingColor].
    split; [apply Forall_app; split;
            [exact Hfp|now apply converted_allFinite]|].
    split; [apply Forall_app; split;
            [exact Hfc|
             now apply converted_allFinite, storable_colorComponents]|].
    split; [apply Forall_app; split;
            [exact Hbp|apply converted_allFloat32]|].
    split; [apply Forall_app; split;
            [exact Hbc|apply converted_allFloat32]|].
    exact Hcol.
  - repeat split; assumption.
  - repeat split; assumption.
Qed.

Lemma sound_handleAll (events : list event) (s : state) (n : Z) :
  sound s n -> forallb ordinaryEvent events = true ->
  n + clicks events <= MAX_VERTICES ->
  sound (handleAll events s) (n + clicks events).
Proof.
  revert s n. induction events as [|ev events IH]; intros s n Hs Hev Hmax.
  - cbn [handleAll fold_left clicks]. now rewrite Z.add_0_r.
  - cbn [forallb] in Hev. apply andb_prop in Hev as [Hev Hevs].
    pose proof (clicks_nonneg events) as Hpos.
    assert (Esplit : n + clicks (ev :: events)
                     = n + clicks [ev] + clicks events)
      by (destruct ev; cbn [clicks]; lia).
    rewrite Esplit in *.
    apply (IH (handle s ev) (n + clicks [ev])); try assumption.
    apply sound_handle; try assumption. lia.
Qed.

Lemma allocated_download (s : state) :
  allocated s -> allocated (fst (downloadDrawing s)).
Proof. intros H. exact H. Qed.

(** C3: take an ordinary session that appends at most MAX_VERTICES vertices
    (every click on a canvas of positive width and height, every coordinate
    and every colour component stored as a finite binary32 number, as for
    the clicks inside the canvas and the colours between 0 and 1), save it,
    and load the saved file (in the same session or in another one with its
    buffers allocated).  The load returns normally; the position
    and colour arrays it leaves in use are equal to the ones in use before
    the save, element for element (so also within 1e-6), both byte offsets
    are the ones before the save, and the ledger is the one before the
    save. *)
Theorem save_then_load_restores
        (StringToNumber : string -> number)
        (mode : string) (color : number * number * number)
        (events : list event) (target : state) :
  storableColor color = true ->
  forallb ordinaryEvent events = true ->
  clicks events <= MAX_VERTICES ->
  allocated target ->
  let s := handleAll events (init mode color) in
  let file := snd (downloadDrawing s) in
  exists loaded calls,
    uploadDrawing StringToNumber file target = Returned loaded calls
    /\ exportPositions loaded = exportPositions s
    /\ exportColors loaded = exportColors s
    /\ Forall2 closeTo (exportPositions loaded) (exportPositions s)
    /\ Forall2 closeTo (exportColors loaded) (exportColors s)
    /\ currentCoordByteOffset (gl loaded) = currentCoordByteOffset (gl s)
    /\ currentColorByteOffset (gl loaded) = currentColorByteOffset (gl s)
    /\ drawingHistory loaded = drawingHistory s.
Proof.
  intros Hcolor Hev Hmax Htarget s file.
  destruct (sound_handleAll events (init mode color) 0
                            (sound_init mode color Hcolor) Hev Hmax)
    as (Ha & Hn & (Hruns & _) & Hfp & Hfc & Hbp & Hbc & _).
  fold s in Ha, Hn, Hruns, Hfp, Hfc, Hbp, Hbc.
  pose proof (clicks_nonneg events) as Hnonneg.
  rewrite Z.add_0_l in Hn.
  pose proof (withinBuffers_holds s _ Ha Hn Hmax) as Hin.
  destruct (offsets_in_floats s _ Hn) as [Ep Ec].
  assert (Hlp : Z.of_nat (length (exportPositions s)) = 2 * clicks events).
  { unfold exportPositions. rewrite length_firstn, Ep.
    destruct Ha as [Hp _]. unfold MAX_VERTICES in *. lia. }
  assert (Hlc : Z.of_nat (length (exportColors s)) = 3 * clicks events).
  { unfold exportColors. rewrite length_firstn, Ec.
    destruct Ha as [_ Hc]. unfold MAX_VERTICES in *. lia. }
  subst file. rewrite (downloaded_arrays s Hin).
  set (P := exportPositions s) in *. set (C := exportColors s) in *.
  eexists _, _. split; [apply uploadDrawing_sequences|].
  unfold exportPositions, exportColors.
  cbn [gl drawingHistory currentCoordByteOffset currentColorByteOffset
       posBuffer colorBuffer].
  rewrite !Z.div_mul by discriminate. rewrite !Nat2Z.id.
  rewrite !json_number_round_trip by assumption.
  rewrite !length_map.
  assert (Hexp : firstn (length P) (GL.writeStore (posBuffer (gl target)) 0 P)
                 = P).
  { apply written_from_zero.
    destruct Htarget as [Hp _]. unfold MAX_VERTICES in *. lia. }
  assert (Hexc : firstn (length C) (GL.writeStore (colorBuffer (gl target)) 0 C)
                 = C).
  { apply written_from_zero.
    destruct Htarget as [_ Hc]. unfold MAX_VERTICES in *. lia. }
  rewrite Hexp, Hexc.
  split; [reflexivity|]. split; [reflexivity|].
  split; [now apply closeTo_refl|].
  split; [now apply closeTo_refl|].
  destruct Hn as (_ & Hoffp & Hoffc).
  split; [rewrite Hlp, Hoffp; unfold BYTES_PER_ELEMENT; lia|].
  split; [rewrite Hlc, Hoffc; unfold BYTES_PER_ELEMENT; lia|].
  now apply parse_stringify_runs.
Qed.

Lemma save_then_load_restores_witness :
  let events := [Click (mkCanvas 300 150) (mkClick 10 20);
                 ChangeMode "LINES";
                 Click (mkCanvas 300 150) (mkClick 150 75)] in
  let s := handleAll events (init "POINTS" (Fin 0, Fin 0, Fin 0)) in
  exists loaded calls,
    uploadDrawing (fun _ => NaN) (snd (downloadDrawing s))
                  (fst (downloadDrawing s))
    = Returned loaded calls
    /\ exportPositions loaded = exportPositions s
    /\ exportColors loaded = exportColors s
    /\ currentCoordByteOffset (gl loaded) = currentCoordByteOffset (gl s)
    /\ drawingHistory loaded = drawingHistory s.
Proof.
  intros events s.
  assert (Hcolor : storableColor (Fin 0, Fin 0, Fin 0) = true)
    by (vm_compute; reflexivity).
  assert (Hev : forallb ordinaryEvent events = true)
    by (vm_compute; reflexivity).
  assert (Hmax : clicks events <= MAX_VERTICES) by discriminate.
  assert (Htarget : allocated (fst (downloadDrawing s))).
  { destruct (handleAll_allocated_holds
                events (init "POINTS" (Fin 0, Fin 0, Fin 0)) 0
                (allocated_init _ _) (holdsVertices_init _ _)) as [Ha _].
    apply allocated_download. exact Ha. }
  destruct (save_then_load_restores
              (fun _ => NaN) "POINTS" (Fin 0, Fin 0, Fin 0) events
              (fst (downloadDrawing s)) Hcolor Hev Hmax Htarget)
    as (loaded & calls & Hload & Hp & Hc & _ & _ & Hoff & _ & Hh).
  exists loaded, calls.
  exact (conj Hload (conj Hp (conj Hc (conj Hoff Hh)))).
Defined.

(** ** The ledger after a save *)

Lemma render_calls (s : state) :
  snd (render s) = Clear :: fst (drawEach (drawingHistory s) (Some 0)).
Proof. reflexivity. Qed.

Lemma exports_init (mode : string) (color : number * number * number) :
  exportPositions (init mode color) = []
  /\ exportColors (init mode color) = [].
Proof.
  unfold exportPositions, exportColors.
  cbn [init gl initBuffers currentCoordByteOffset currentColorByteOffset].
  change (Z.to_nat (0 / BYTES_PER_ELEMENT)) with 0%nat.
  now rewrite !firstn_O.
Qed.

Lemma downloadDrawing_appends (s : state) :
  withinBuffers s ->
  drawingHistory (fst (downloadDrawing s))
  = drawingHistory s ++ [F32 (exportPositions s); F32 (exportColors s)].
Proof.
  intros [Hp Hc]. rewrite downloadDrawing_history.
  now rewrite !readStore_prefix.
Qed.

(** C10 fails on the code: [downloadDrawing] pushes the two arrays onto
    [drawingHistory] and never takes them off.  After one click and one
    save the ledger holds the run and the two arrays; the next render pass
    makes a draw call for each array, with no mode and no count, and its
    running index ends as NaN; the next click, in the same mode, finds an
    array at the end of the ledger, starts a second run instead of
    lengthening the first, and that run is drawn from index NaN. *)
Theorem download_leaves_arrays_in_ledger :
  let this := mkCanvas 300 150 in
  let e := mkClick 10 20 in
  let black := (Fin 0, Fin 0, Fin 0) in
  let s := handleAll [Click this e] (init "POINTS" black) in
  let saved := fst (downloadDrawing s) in
  let positions :=
    F32 (Float32Array_from_numbers (clipCoordinates 10 20 300 150)) in
  let colors := F32 [Fin 0; Fin 0; Fin 0] in
  drawingHistory s = [Run "POINTS" 1]
  /\ drawingHistory saved = [Run "POINTS" 1; positions; colors]
  /\ snd (render saved)
     = [Clear;
        DrawArrays (Some "POINTS"%string) (Some 0) (Some 1);
        DrawArrays None (Some 1) None;
        DrawArrays None None None]
  /\ snd (drawEach (drawingHistory saved) (Some 0)) = None
  /\ drawingHistory (fst (addVertex this e saved))
     = [Run "POINTS" 1; positions; colors; Run "POINTS" 1]
  /\ snd (addVertex this e saved)
     = [Clear;
        DrawArrays (Some "POINTS"%string) (Some 0) (Some 1);
        DrawArrays None (Some 1) None;
        DrawArrays None None None;
        DrawArrays (Some "POINTS"%string) None (Some 1)].
Proof.
  intros this e black s saved positions colors.
  destruct (one_click_session this e) as (Hruns & _ & _ & Hin).
  fold black s in Hruns, Hin.
  destruct (addVertex_exports this e (init "POINTS" black) 0
              (allocated_init _ _) (holdsVertices_init _ _) eq_refl)
    as [Hp Hc].
  destruct (exports_init "POINTS" black) as [Ep0 Ec0].
  rewrite Ep0 in Hp. rewrite Ec0 in Hc.
  cbn [init gl drawingColor initBuffers] in Hc.
  assert (Eblack : Float32Array_from_numbers (colorComponents black)
                   = [Fin 0; Fin 0; Fin 0]) by (vm_compute; reflexivity).
  rewrite Eblack in Hc. cbn [app] in Hp, Hc.
  assert (Hsaved : drawingHistory saved = [Run "POINTS" 1; positions; colors]).
  { subst saved. rewrite (downloadDrawing_appends s Hin), Hruns.
    subst s. cbn [handleAll fold_left handle]. rewrite Hp, Hc.
    reflexivity. }
  assert (Hmode : drawingMode (gl saved) = "POINTS"%string).
  { subst saved s. rewrite downloadDrawing_gl.
    cbn [handleAll fold_left handle]. now rewrite addVertex_state. }
  split; [exact Hruns|]. split; [exact Hsaved|].
  split; [now rewrite render_calls, Hsaved|].
  split; [now rewrite Hsaved|].
  split.
  - rewrite addVertex_state. cbn [drawingHistory]. now rewrite Hmode, Hsaved.
  - now rewrite addVertex_calls, Hmode, Hsaved.
Qed.

(** What the second of two saves in a row writes. *)
Lemma two_saves (s : state) :
  withinBuffers s ->
  snd (downloadDrawing (fst (downloadDrawing s)))
  = JSON_stringify (drawingHistory s)
    ++ [JSeq (map numberToJSON (exportPositions s));
        JSeq (map numberToJSON (exportColors s));
        JSeq (map numberToJSON (exportPositions s));
        JSeq (map numberToJSON (exportColors s))].
Proof.
  intros Hin.
  rewrite (downloaded_arrays _ (withinBuffers_download s Hin)).
  destruct (exports_download s) as [-> ->].
  rewrite (downloadDrawing_appends s Hin).
  unfold JSON_stringify. rewrite map_app, <- app_assoc. reflexivity.
Qed.

(** C8 fails on the code: a save leaves its two arrays in
    [drawingHistory], and the next save writes them too.  After
    one click, a drawing of one run, the first save writes three entries,
    the run record, the two position components and the three colour
    components; the drawing still has one run, but the second save writes
    five entries, and the entries after the run record are the two arrays
    twice. *)
Theorem second_save_writes_four_arrays :
  let this := mkCanvas 300 150 in
  let black := (Fin 0, Fin 0, Fin 0) in
  let s := handleAll [Click this (mkClick 10 20)] (init "POINTS" black) in
  let saved := fst (downloadDrawing s) in
  let positions :=
    JSeq [Some (-15658735 # 16777216); Some (3075823 # 4194304)] in
  let colors := JSeq [Some 0%Q; Some 0%Q; Some 0%Q] in
  drawingHistory s = [Run "POINTS" 1]
  /\ snd (downloadDrawing s) = [JRun "POINTS" 1; positions; colors]
  /\ filter isRun (drawingHistory saved) = [Run "POINTS" 1]
  /\ snd (downloadDrawing saved)
     = [JRun "POINTS" 1; positions; colors; positions; colors]
  /\ length (snd (downloadDrawing saved)) <> (1 + 2)%nat.
Proof.
  intros this black s saved positions colors.
  destruct (one_click_session this (mkClick 10 20)) as (Hruns & _ & _ & Hin).
  fold black s in Hruns, Hin.
  destruct (addVertex_exports this (mkClick 10 20) (init "POINTS" black) 0
              (allocated_init _ _) (holdsVertices_init _ _) eq_refl)
    as [Hp Hc].
  destruct (exports_init "POINTS" black) as [Ep0 Ec0].
  rewrite Ep0 in Hp. rewrite Ec0 in Hc.
  assert (EP : exportPositions s
               = [Fin (-15658735 # 16777216); Fin (3075823 # 4194304)]).
  { subst s. cbn [handleAll fold_left handle]. rewrite Hp.
    vm_compute. reflexivity. }
  assert (EC : exportColors s = [Fin 0; Fin 0; Fin 0]).
  { subst s. cbn [handleAll fold_left handle]. rewrite Hc.
    cbn [init gl drawingColor initBuffers]. vm_compute. reflexivity. }
  assert (Hfirst : snd (downloadDrawing s)
                   = [JRun "POINTS" 1; positions; colors]).
  { rewrite (downloaded_arrays s Hin), Hruns, EP, EC. reflexivity. }
  assert (Hsaved : filter isRun (drawingHistory saved) = [Run "POINTS" 1]).
  { subst saved. rewrite (downloadDrawing_appends s Hin), Hruns, EP, EC.
    reflexivity. }
  assert (Hsecond : snd (downloadDrawing saved)
                    = [JRun "POINTS" 1; positions; colors; positions; colors]).
  { subst saved. rewrite (two_saves s Hin), Hruns, EP, EC. reflexivity. }
  split; [exact Hruns|]. split; [exact Hfirst|]. split; [exact Hsaved|].
  split; [exact Hsecond|].
  rewrite Hsecond. discriminate.
Qed.

(** * Further properties of the code *)

(** ** [hexToRgb] *)

Lemma hexDigit_is_plain (c : ascii) (d : Z) :
  hexDigitValue c = Some d ->
  isWhiteSpace c = false
  /\ Ascii.eqb c "-" = false /\ Ascii.eqb c "+" = false
  /\ Ascii.eqb c "x" = false /\ Ascii.eqb c "X" = false
  /\ 0 <= d <= 15.
Proof.
  destruct c as [[] [] [] [] [] [] [] []]; intros H; vm_compute in H;
    try discriminate H; injection H as <-;
    repeat split; try reflexivity; discriminate.
Qed.

Lemma parseInt16_two_digits (c1 c2 : ascii) (d1 d2 : Z) :
  hexDigitValue c1 = Some d1 -> hexDigitValue c2 = Some d2 ->
  parseInt16 (String c1 (String c2 EmptyString))
  = Fin (inject_Z (16 * d1 + d2)).
Proof.
  intros H1 H2.
  destruct (hexDigit_is_plain c1 d1 H1) as (Hw & Hm & Hp & _).
  destruct (hexDigit_is_plain c2 d2 H2) as (_ & _ & _ & Hx & HX & _).
  unfold parseInt16. cbn [trimStart]. rewrite Hw. cbv beta iota zeta.
  rewrite Hm, Hp. cbv beta iota zeta. cbn [orb]. cbv beta iota zeta.
  rewrite Hx, HX. cbn [orb]. rewrite andb_false_r. cbv beta iota zeta.
  cbn [digitsValue]. rewrite H1, H2.
  do 2 f_equal. lia.
Qed.

Lemma substring_past_the_end (n m : nat) (s : string) :
  (String.length s <= n)%nat -> substring n m s = EmptyString.
Proof.
  revert s. induction n as [|n IH]; intros [|c s] H; cbn in H.
  - now destruct m.
  - lia.
  - reflexivity.
  - cbn. apply IH. lia.
Qed.

Lemma hexToRgb_digits
      (c0 c1 c2 c3 c4 c5 c6 : ascii) (rest : string)
      (d1 d2 d3 d4 d5 d6 : Z) :
  hexDigitValue c1 = Some d1 -> hexDigitValue c2 = Some d2 ->
  hexDigitValue c3 = Some d3 -> hexDigitValue c4 = Some d4 ->
  hexDigitValue c5 = Some d5 -> hexDigitValue c6 = Some d6 ->
  hexToRgb (String c0 (String c1 (String c2 (String c3 (String c4
             (String c5 (String c6 rest)))))))
  = (Fin (inject_Z (16 * d1 + d2) / 255)%Q,
     Fin (inject_Z (16 * d3 + d4) / 255)%Q,
     Fin (inject_Z (16 * d5 + d6) / 255)%Q).
Proof.
  intros H1 H2 H3 H4 H5 H6.
  unfold hexToRgb. cbn [substring].
  replace (substring 0 0 rest) with EmptyString by now destruct rest.
  rewrite (parseInt16_two_digits c1 c2 d1 d2 H1 H2).
  rewrite (parseInt16_two_digits c3 c4 d3 d4 H3 H4).
  rewrite (parseInt16_two_digits c5 c6 d5 d6 H5 H6).
  reflexivity.
Qed.

(** X1: on a string whose characters 1 to 6 are digits of radix 16, in
    either case, whatever its first character and whatever follows,
    [hexToRgb] returns the three two-digit values divided by 255: three
    finite numbers between 0 and 1. *)
Theorem hexToRgb_of_hex_digits
        (c0 c1 c2 c3 c4 c5 c6 : ascii) (rest : string)
        (d1 d2 d3 d4 d5 d6 : Z) :
  hexDigitValue c1 = Some d1 -> hexDigitValue c2 = Some d2 ->
  hexDigitValue c3 = Some d3 -> hexDigitValue c4 = Some d4 ->
  hexDigitValue c5 = Some d5 -> hexDigitValue c6 = Some d6 ->
  let hexValue :=
    String c0 (String c1 (String c2 (String c3 (String c4
      (String c5 (String c6 rest)))))) in
  let r := (inject_Z (16 * d1 + d2) / 255)%Q in
  let g := (inject_Z (16 * d3 + d4) / 255)%Q in
  let b := (inject_Z (16 * d5 + d6) / 255)%Q in
  hexToRgb hexValue = (Fin r, Fin g, Fin b)
  /\ finiteColor (hexToRgb hexValue) = true
  /\ (0 <= r <= 1)%Q /\ (0 <= g <= 1)%Q /\ (0 <= b <= 1)%Q.
Proof.
  intros H1 H2 H3 H4 H5 H6 hexValue r g b.
  assert (E : hexToRgb hexValue = (Fin r, Fin g, Fin b))
    by now apply hexToRgb_digits.
  split; [exact E|]. split; [now rewrite E|].
  assert (Hbound : forall d d', 0 <= d <= 15 -> 0 <= d' <= 15 ->
                     (0 <= inject_Z (16 * d + d') / 255 <= 1)%Q).
  { intros d d' Hd Hd'. split.
    - apply Qle_shift_div_l; [reflexivity|].
      rewrite Qmult_0_l. change 0%Q with (inject_Z 0).
      rewrite <- Zle_Qle. lia.
    - apply Qle_shift_div_r; [reflexivity|].
      rewrite Qmult_1_l. change 255%Q with (inject_Z 255).
      rewrite <- Zle_Qle. lia. }
  destruct (hexDigit_is_plain c1 d1 H1) as (_ & _ & _ & _ & _ & B1).
  destruct (hexDigit_is_plain c2 d2 H2) as (_ & _ & _ & _ & _ & B2).
  destruct (hexDigit_is_plain c3 d3 H3) as (_ & _ & _ & _ & _ & B3).
  destruct (hexDigit_is_plain c4 d4 H4) as (_ & _ & _ & _ & _ & B4).
  destruct (hexDigit_is_plain c5 d5 H5) as (_ & _ & _ & _ & _ & B5).
  destruct (hexDigit_is_plain c6 d6 H6) as (_ & _ & _ & _ & _ & B6).
  split; [now apply Hbound|]. split; now apply Hbound.
Qed.

Lemma hexToRgb_of_hex_digits_witness :
  hexToRgb "#ff8000"
  = (Fin (inject_Z (16 * 15 + 15) / 255)%Q,
     Fin (inject_Z (16 * 8 + 0) / 255)%Q,
     Fin (inject_Z (16 * 0 + 0) / 255)%Q)
  /\ finiteColor (hexToRgb "#ff8000") = true.
Proof.
  destruct (hexToRgb_of_hex_digits
              "#" "f" "f" "8" "0" "0" "0" EmptyString 15 15 8 0 0 0
              eq_refl eq_refl eq_refl eq_refl eq_refl eq_refl)
    as (E & Hfin & _).
  exact (conj E Hfin).
Defined.

(** X2: on a string too short to hold a component [hexToRgb] gives NaN for
    it: blue below six characters, green below four, red below two. *)
Theorem hexToRgb_of_short_string (hexValue : string) :
  ((String.length hexValue <= 5)%nat -> snd (hexToRgb hexValue) = NaN)
  /\ ((String.length hexValue <= 3)%nat ->
      snd (fst (hexToRgb hexValue)) = NaN)
  /\ ((String.length hexValue <= 1)%nat ->
      fst (fst (hexToRgb hexValue)) = NaN).
Proof.
  unfold hexToRgb. cbn [fst snd].
  repeat split; intros H; now rewrite substring_past_the_end.
Qed.

Lemma hexToRgb_of_short_string_witness :
  (String.length "#12" <= 3)%nat
  /\ snd (hexToRgb "#12") = NaN
  /\ snd (fst (hexToRgb "#12")) = NaN.
Proof.
  assert (Hlen3 : (String.length "#12" <= 3)%nat) by (cbn; lia).
  assert (Hlen5 : (String.length "#12" <= 5)%nat) by (cbn; lia).
  destruct (hexToRgb_of_short_string "#12") as (Hb & Hg & _).
  exact (conj Hlen3 (conj (Hb Hlen5) (Hg Hlen3))).
Defined.

(** ** Clicks inside the canvas *)

(** X3: a click inside a canvas of positive width and height (0 <= x <= w,
    0 <= y <= h) is converted to two finite coordinates between -1 and 1. *)
Theorem clipCoordinates_in_range (x y : Q) (w h : Z) :
  0 < w -> 0 < h ->
  (0 <= x <= inject_Z w)%Q -> (0 <= y <= inject_Z h)%Q ->
  Forall inClipRange (clipCoordinates x y w h).
Proof.
  intros Hw Hh [Hx0 Hxw] [Hy0 Hyh].
  rewrite clipCoordinates_finite by assumption.
  assert (Hwq : (0 < inject_Z w)%Q)
    by (change 0%Q with (inject_Z 0); now rewrite <- Zlt_Qlt).
  assert (Hhq : (0 < inject_Z h)%Q)
    by (change 0%Q with (inject_Z 0); now rewrite <- Zlt_Qlt).
  assert (Hx1 : (0 <= 2 * x / inject_Z w)%Q)
    by (apply Qle_shift_div_l; [assumption|lra]).
  assert (Hx2 : (2 * x / inject_Z w <= 2)%Q)
    by (apply Qle_shift_div_r; [assumption|lra]).
  assert (Hy1 : (0 <= 2 * y / inject_Z h)%Q)
    by (apply Qle_shift_div_l; [assumption|lra]).
  assert (Hy2 : (2 * y / inject_Z h <= 2)%Q)
    by (apply Qle_shift_div_r; [assumption|lra]).
  repeat constructor; unfold inClipRange; lra.
Qed.

Lemma clipCoordinates_in_range_witness :
  Forall inClipRange (clipCoordinates 10 20 300 150).
Proof.
  apply clipCoordinates_in_range; try reflexivity; split; discriminate.
Defined.

(** X4: on a canvas of positive width and height the conversion keeps the
    order of x and reverses the order of y: a click further right gets a
    larger first coordinate, a click further down a smaller second one.  So
    two different pixels never get the same coordinates. *)
Theorem clipCoordinates_orientation (x1 y1 x2 y2 : Q) (w h : Z) :
  0 < w -> 0 < h ->
  exists a1 b1 a2 b2,
    clipCoordinates x1 y1 w h = [Fin a1; Fin b1]
    /\ clipCoordinates x2 y2 w h = [Fin a2; Fin b2]
    /\ ((x1 < x2)%Q -> (a1 < a2)%Q)
    /\ ((y1 < y2)%Q -> (b2 < b1)%Q)
    /\ ((a1 == a2)%Q -> (x1 == x2)%Q)
    /\ ((b1 == b2)%Q -> (y1 == y2)%Q).
Proof.
  intros Hw Hh.
  assert (Hwq : (0 < inject_Z w)%Q)
    by (change 0%Q with (inject_Z 0); now rewrite <- Zlt_Qlt).
  assert (Hhq : (0 < inject_Z h)%Q)
    by (change 0%Q with (inject_Z 0); now rewrite <- Zlt_Qlt).
  eexists _, _, _, _.
  split; [now apply clipCoordinates_finite|].
  split; [now apply clipCoordinates_finite|].
  assert (Hscale : forall (p q d : Q), (0 < d)%Q ->
            ((p < q)%Q -> (2 * p / d < 2 * q / d)%Q)
            /\ ((2 * p / d == 2 * q / d)%Q -> (p == q)%Q)).
  { intros p q d Hd. split.
    - intros Hpq. unfold Qdiv. apply Qmult_lt_compat_r.
      + now apply Qinv_lt_0_compat.
      + lra.
    - intros E. unfold Qdiv in E.
      apply Qmult_inj_r in E; [lra|].
      intros Hinv. apply Qinv_lt_0_compat in Hd. rewrite Hinv in Hd.
      discriminate Hd. }
  destruct (Hscale x1 x2 _ Hwq) as [Hxlt Hxeq].
  destruct (Hscale y1 y2 _ Hhq) as [Hylt Hyeq].
  repeat split.
  - intros H. apply Hxlt in H. lra.
  - intros H. apply Hylt in H. lra.
  - intros H. apply Hxeq. lra.
  - intros H. apply Hyeq. lra.
Qed.

Lemma clipCoordinates_orientation_witness :
  exists a1 b1 a2 b2,
    clipCoordinates 10 20 300 150 = [Fin a1; Fin b1]
    /\ clipCoordinates 30 40 300 150 = [Fin a2; Fin b2]
    /\ (a1 < a2)%Q /\ (b2 < b1)%Q.
Proof.
  assert (Hw : 0 < 300) by reflexivity.
  assert (Hh : 0 < 150) by reflexivity.
  destruct (clipCoordinates_orientation 10 20 30 40 300 150 Hw Hh)
    as (a1 & b1 & a2 & b2 & E1 & E2 & Hx & Hy & _).
  exists a1, b1, a2, b2.
  exact (conj E1 (conj E2 (conj (Hx eq_refl) (Hy eq_refl)))).
Defined.

(** ** What a session leaves in the two buffers *)


Lemma handleAll_cons (ev : event) (events : list event) (s : state) :
  handleAll (ev :: events) s = handleAll events (handle s ev).
Proof. reflexivity. Qed.





(** ** Clicks after the buffers are full *)

Lemma addVertex_past_capacity (this : Canvas) (e : MouseEvent)
      (s : state) (n : Z) :
  allocated s -> holdsVertices s n -> MAX_VERTICES <= n ->
  posBuffer (gl (fst (addVertex this e s))) = posBuffer (gl s)
  /\ colorBuffer (gl (fst (addVertex this e s))) = colorBuffer (gl s).
Proof.
  intros [Hp Hc] (Hn & Hpos & Hcol) Hmax.
  rewrite addVertex_state. cbn [gl posBuffer colorBuffer].
  rewrite Hpos, Hcol. unfold MAX_VERTICES in *. split.
  - apply writeStore_refused. unfold BYTES_PER_ELEMENT.
    rewrite converted_position_length. lia.
  - apply writeStore_refused. unfold BYTES_PER_ELEMENT.
    rewrite converted_color_length. lia.
Qed.

Lemma handleAll_past_capacity (more : list event) (s : state) (n : Z) :
  allocated s -> holdsVertices s n -> MAX_VERTICES <= n ->
  posBuffer (gl (handleAll more s)) = posBuffer (gl s)
  /\ colorBuffer (gl (handleAll more s)) = colorBuffer (gl s).
Proof.
  revert s n. induction more as [|ev more IH]; intros s n Ha Hn Hmax.
  - split; reflexivity.
  - pose proof (clicks_nonneg [ev]) as Hpos.
    destruct (IH (handle s ev) (n + clicks [ev])
                 (allocated_handle s ev Ha) (holdsVertices_handle s n ev Hn)
                 ltac:(lia)) as [IHp IHc].
    rewrite handleAll_cons, IHp, IHc.
    destruct ev as [this e|value|c]; [|split; reflexivity..].
    apply (addVertex_past_capacity this e s n Ha Hn Hmax).
Qed.

(** X6: once a session has made MAX_VERTICES clicks or more, nothing that
    is clicked or selected afterwards changes the content of the position
    buffer or of the colour buffer: the first MAX_VERTICES vertices stay
    and no later one is stored. *)
Theorem full_buffers_are_frozen
        (mode : string) (color : number * number * number)
        (events more : list event) :
  MAX_VERTICES <= clicks events ->
  let full := handleAll events (init mode color) in
  let later := handleAll (events ++ more) (init mode color) in
  posBuffer (gl later) = posBuffer (gl full)
  /\ colorBuffer (gl later) = colorBuffer (gl full)
  /\ vertexCount later = clicks events + clicks more.
Proof.
  intros Hmax full later.
  destruct (handleAll_allocated_holds events (init mode color) 0
              (allocated_init mode color) (holdsVertices_init mode color))
    as [Ha Hn].
  fold full in Ha, Hn. rewrite Z.add_0_l in Hn.
  assert (Elater : later = handleAll more full)
    by (unfold later, full, handleAll; apply fold_left_app).
  destruct (handleAll_past_capacity more full _ Ha Hn Hmax) as [Hp Hc].
  destruct (handleAll_allocated_holds more full _ Ha Hn) as [_ Hn'].
  rewrite Elater.
  split; [exact Hp|]. split; [exact Hc|].
  now apply holdsVertices_count.
Qed.

Lemma full_buffers_are_frozen_witness :
  let this := mkCanvas 300 150 in
  let events := repeat (Click this (mkClick 10 20)) (Z.to_nat MAX_VERTICES) in
  let more := [Click this (mkClick 30 40)] in
  let black := (Fin 0, Fin 0, Fin 0) in
  MAX_VERTICES <= clicks events
  /\ posBuffer (gl (handleAll (events ++ more) (init "POINTS" black)))
     = posBuffer (gl (handleAll events (init "POINTS" black))).
Proof.
  intros this events more black.
  assert (Hmax : MAX_VERTICES <= clicks events).
  { unfold events. rewrite clicks_repeat. unfold MAX_VERTICES. lia. }
  split; [exact Hmax|].
  exact (proj1 (full_buffers_are_frozen "POINTS" black events more Hmax)).
Defined.

(** ** The ledger as the runs of the click modes *)

Lemma vertexModes_app (a b : list entry) :
  vertexModes (a ++ b) = vertexModes a ++ vertexModes b.
Proof.
  induction a as [|e a IH]; [reflexivity|].
  destruct e; cbn [app vertexModes]; rewrite IH; [apply app_assoc|reflexivity..].
Qed.

Lemma maximalRuns_are_runs (h : list entry) :
  maximalRuns h = true -> forallb isRun h = true.
Proof.
  induction h as [|e h IH]; [reflexivity|].
  destruct e as [m n| |]; try discriminate.
  cbn [maximalRuns forallb isRun].
  intros [_ Hh]%andb_prop. now apply IH.
Qed.

Lemma maximalRuns_snoc (h : list entry) (m : string) (n : Z) :
  maximalRuns (h ++ [Run m n])
  = maximalRuns h && (1 <=? n) && startsNewRun m h.
Proof.
  induction h as [|e h IH].
  - cbn. now rewrite !andb_true_r.
  - destruct e as [m0 n0| |]; try reflexivity.
    destruct h as [|e' h'].
    + cbn. rewrite (String.eqb_sym m m0), !andb_true_r.
      destruct (1 <=? n0), (1 <=? n), (String.eqb m0 m); reflexivity.
    + change ((Run m0 n0 :: e' :: h') ++ [Run m n])
        with (Run m0 n0 :: (e' :: h') ++ [Run m n]).
      cbn [maximalRuns]. rewrite IH.
      change (startsNewRun m (Run m0 n0 :: e' :: h'))
        with (startsNewRun m (e' :: h')).
      cbn [app]. cbn [maximalRuns].
      destruct e' as [m1 n1| |]; cbn [andb];
        rewrite ?andb_false_r, ?andb_assoc; reflexivity.
Qed.

Lemma maximalRuns_recordVertex (m : string) (h : list entry) :
  maximalRuns h = true ->
  maximalRuns (recordVertex m h) = true
  /\ vertexModes (recordVertex m h) = vertexModes h ++ [m].
Proof.
  intros Hh. unfold recordVertex.
  destruct (history_cases h) as [->|(h' & e & ->)]; [split; reflexivity|].
  rewrite lastEntry_snoc.
  pose proof (maximalRuns_are_runs _ Hh) as Hruns.
  rewrite forallb_isRun_snoc in Hruns. apply andb_prop in Hruns as [_ He].
  destruct e as [m' n| |]; try discriminate He.
  pose proof Hh as Hsnoc. rewrite maximalRuns_snoc in Hsnoc.
  apply andb_prop in Hsnoc as [[Hh' Hn]%andb_prop Hnew].
  apply Z.leb_le in Hn.
  destruct (String.eqb_spec m' m) as [->|Hdiff].
  - rewrite removelast_last, maximalRuns_snoc, Hh', Hnew.
    split.
    + cbn [andb]. rewrite andb_true_r. apply Z.leb_le. lia.
    + rewrite !vertexModes_app. cbn [vertexModes]. rewrite !app_nil_r.
      replace (Z.to_nat (n + 1)) with (S (Z.to_nat n)) by lia.
      rewrite <- app_assoc. f_equal. cbn [repeat]. apply repeat_cons.
  - rewrite maximalRuns_snoc, Hh. split.
    + cbn [andb]. unfold startsNewRun. rewrite lastEntry_snoc.
      cbn [entry_mode strictNotEqual].
      apply String.eqb_neq in Hdiff. rewrite String.eqb_sym in Hdiff.
      now rewrite Hdiff.
    + rewrite (vertexModes_app (h' ++ [Run m' n])). cbn [vertexModes repeat].
      reflexivity.
Qed.

Lemma ledger_of_session (events : list event) (m : string) (h : list entry) :
  maximalRuns h = true ->
  maximalRuns (snd (fold_left ledgerStep events (m, h))) = true
  /\ vertexModes (snd (fold_left ledgerStep events (m, h)))
     = vertexModes h ++ clickModes events m.
Proof.
  revert m h. induction events as [|ev events IH]; intros m h Hh.
  - cbn [fold_left snd clickModes]. now rewrite app_nil_r.
  - cbn [fold_left]. destruct ev as [this e|value|c]; cbn [ledgerStep fst snd].
    + destruct (maximalRuns_recordVertex m h Hh) as [Hmax Hmodes].
      destruct (IH m _ Hmax) as [IH1 IH2].
      split; [exact IH1|]. rewrite IH2, Hmodes.
      cbn [clickModes]. now rewrite <- app_assoc.
    + now apply IH.
    + destruct (IH m h Hh) as [IH1 IH2]. now split.
Qed.

(** X7: after any session the ledger covers, vertex by vertex and in
    placement order, exactly the mode that was selected at each click:
    replaying the runs gives every vertex the mode it was placed with. *)
Theorem ledger_replays_click_modes
        (mode : string) (color : number * number * number)
        (events : list event) :
  vertexModes (drawingHistory (handleAll events (init mode color)))
  = clickModes events mode.
Proof.
  rewrite (ledgerView_history (handleAll _ _)), ledgerView_handleAll.
  rewrite ledgerView_init.
  now destruct (ledger_of_session events mode [] eq_refl) as [_ ->].
Qed.

(** X8: after any session every entry of the ledger is a run of at least
    one vertex, and two neighbouring runs never have the same mode: clicks
    in the same mode are always batched into one draw call, and no empty
    run is ever drawn. *)
Theorem ledger_runs_are_maximal
        (mode : string) (color : number * number * number)
        (events : list event) :
  maximalRuns (drawingHistory (handleAll events (init mode color))) = true.
Proof.
  rewrite (ledgerView_history (handleAll _ _)), ledgerView_handleAll.
  rewrite ledgerView_init.
  now destruct (ledger_of_session events mode [] eq_refl) as [-> _].
Qed.

(** ** Saving and loading at the edges *)

Lemma readStore_refused (store : list number) (n : Z) :
  (length store < Z.to_nat n)%nat ->
  GL.readStore store (Float32Array_new n) = Float32Array_new n.
Proof.
  intros H. unfold GL.readStore, BYTES_PER_ELEMENT.
  rewrite Float32Array_new_length.
  destruct (_ <? _) eqn:E; [reflexivity|apply Z.ltb_ge in E; lia].
Qed.

Lemma zeros_to_JSON (n : Z) :
  map numberToJSON (Float32Array_new n) = repeat (Some 0%Q) (Z.to_nat n).
Proof. unfold Float32Array_new. apply map_repeat. Qed.

(** X9: once the state holds more than MAX_VERTICES vertices, the two
    reads of [downloadDrawing] ask for more than the buffers hold and are
    refused, so the saved file has the ledger followed by two sequences of
    zeros: every position and every colour is missing from the file. *)
Theorem save_past_capacity_writes_zeros (s : state) (n : Z) :
  allocated s -> holdsVertices s n -> MAX_VERTICES < n ->
  snd (downloadDrawing s)
  = JSON_stringify (drawingHistory s)
    ++ [JSeq (repeat (Some 0%Q) (Z.to_nat (2 * n)));
        JSeq (repeat (Some 0%Q) (Z.to_nat (3 * n)))].
Proof.
  intros [Hp Hc] Hn Hmax. rewrite downloadDrawing_file.
  destruct (offsets_in_floats s n Hn) as [-> ->].
  unfold MAX_VERTICES in *.
  rewrite !readStore_refused by lia.
  now rewrite !zeros_to_JSON.
Qed.

Lemma save_past_capacity_writes_zeros_witness :
  let this := mkCanvas 300 150 in
  let events := repeat (Click this (mkClick 10 20))
                       (Z.to_nat (MAX_VERTICES + 1)) in
  let s := handleAll events (init "POINTS" (Fin 0, Fin 0, Fin 0)) in
  (allocated s /\ holdsVertices s (MAX_VERTICES + 1))
  /\ snd (downloadDrawing s)
     = JSON_stringify (drawingHistory s)
       ++ [JSeq (repeat (Some 0%Q) (Z.to_nat (2 * (MAX_VERTICES + 1))));
           JSeq (repeat (Some 0%Q) (Z.to_nat (3 * (MAX_VERTICES + 1))))].
Proof.
  intros this events s.
  destruct (handleAll_allocated_holds events
              (init "POINTS" (Fin 0, Fin 0, Fin 0)) 0
              (allocated_init _ _) (holdsVertices_init _ _)) as [Ha Hn].
  fold s in Ha, Hn.
  assert (E : 0 + clicks events = MAX_VERTICES + 1).
  { unfold events. rewrite clicks_repeat. unfold MAX_VERTICES. lia. }
  rewrite E in Hn.
  assert (Hmax : MAX_VERTICES < MAX_VERTICES + 1) by reflexivity.
  split; [exact (conj Ha Hn)|].
  exact (save_past_capacity_writes_zeros s (MAX_VERTICES + 1) Ha Hn Hmax).
Defined.

(** X10: a file with fewer than two entries makes the load handler throw a
    TypeError; by then the ledger has been replaced and emptied, while the
    buffers and the offsets are the ones from before the load. *)
Theorem load_of_short_file_throws
        (StringToNumber : string -> number)
        (file : list jsonEntry) (s : state) :
  (length file < 2)%nat ->
  uploadDrawing StringToNumber file s = TypeError (mkState (gl s) []).
Proof.
  intros H. destruct file as [|a [|b rest]]; [reflexivity..|].
  cbn [length] in H. lia.
Qed.

Lemma load_of_short_file_throws_witness :
  let s := mkState (mkGL 8 12 [Fin 0; Fin 0] [Fin 0; Fin 0; Fin 0] None false
                         "POINTS" (Fin 0, Fin 0, Fin 0))
                   [Run "POINTS" 1] in
  (length [JRun "POINTS" 1] < 2)%nat
  /\ uploadDrawing (fun _ => NaN) [JRun "POINTS" 1] s
     = TypeError (mkState (gl s) []).
Proof.
  intros s.
  assert (H : (length [JRun "POINTS" 1] < 2)%nat) by (cbn; lia).
  exact (conj H (load_of_short_file_throws (fun _ => NaN) _ s H)).
Defined.

(** X11: a file whose position sequence is longer than the position buffer
    is loaded without error: the write of the positions is refused and the
    buffer keeps its content, but the coordinate offset is set to four
    times the length of the sequence, past the end of the buffer. *)
Theorem load_of_oversized_positions
        (StringToNumber : string -> number)
        (records : list jsonEntry) (ps cs : list (option Q)) (s : state) :
  allocated s ->
  MAX_VERTICES * 2 < Z.of_nat (length ps) ->
  exists loaded calls,
    uploadDrawing StringToNumber (records ++ [JSeq ps; JSeq cs]) s
    = Returned loaded calls
    /\ posBuffer (gl loaded) = posBuffer (gl s)
    /\ currentCoordByteOffset (gl loaded)
       = BYTES_PER_ELEMENT * Z.of_nat (length ps)
    /\ BYTES_PER_ELEMENT * Z.of_nat (length (posBuffer (gl loaded)))
       < currentCoordByteOffset (gl loaded).
Proof.
  intros [Hp _] Hlong.
  eexists _, _. split; [apply uploadDrawing_sequences|].
  cbn [gl posBuffer currentCoordByteOffset].
  assert (E : GL.writeStore (posBuffer (gl s)) 0 (map jsonToNumber ps)
              = posBuffer (gl s)).
  { apply writeStore_refused. rewrite length_map.
    unfold BYTES_PER_ELEMENT, MAX_VERTICES in *. lia. }
  rewrite E. unfold BYTES_PER_ELEMENT, MAX_VERTICES in *.
  split; [reflexivity|]. split; lia.
Qed.

Lemma load_of_oversized_positions_witness :
  let s := init "POINTS" (Fin 0, Fin 0, Fin 0) in
  let ps := repeat (Some 1%Q) (Z.to_nat (MAX_VERTICES * 2 + 1)) in
  exists loaded calls,
    uploadDrawing (fun _ => NaN) ([] ++ [JSeq ps; JSeq []]) s
    = Returned loaded calls
    /\ posBuffer (gl loaded) = posBuffer (gl s).
Proof.
  intros s ps.
  assert (Hlong : MAX_VERTICES * 2 < Z.of_nat (length ps)).
  { unfold ps. rewrite repeat_length. unfold MAX_VERTICES. lia. }
  destruct (load_of_oversized_positions
              (fun _ => NaN) [] ps [] s (allocated_init _ _) Hlong)
    as (loaded & calls & Hload & Hpos & _).
  exists loaded, calls. exact (conj Hload Hpos).
Defined.

Lemma json_number_there_and_back (data : list number) :
  allFloat32 data ->
  map jsonToNumber (map numberToJSON data) = map zeroIfNotFinite data.
Proof.
  induction 1 as [|x data Hx _ IH]; [reflexivity|].
  cbn [map]. rewrite IH. f_equal.
  destruct x as [q| | |]; [exact Hx|apply toFloat32_zero..].
Qed.

(** X12: saving any state that holds at most MAX_VERTICES vertices, the
    buffers holding binary32 numbers as buffers of floats do, and loading
    the file gives back both arrays with every non-finite number (a
    coordinate of a click on a canvas of width or height 0, a NaN colour
    component, a coordinate or a component that overflowed to an infinity)
    replaced by 0, and both offsets as they were. *)
Theorem save_then_load_zeroes_non_finite
        (StringToNumber : string -> number)
        (s target : state) (n : Z) :
  allocated s -> holdsVertices s n -> n <= MAX_VERTICES ->
  allFloat32 (exportPositions s) -> allFloat32 (exportColors s) ->
  allocated target ->
  exists loaded calls,
    uploadDrawing StringToNumber (snd (downloadDrawing s)) target
    = Returned loaded calls
    /\ exportPositions loaded = map zeroIfNotFinite (exportPositions s)
    /\ exportColors loaded = map zeroIfNotFinite (exportColors s)
    /\ currentCoordByteOffset (gl loaded) = currentCoordByteOffset (gl s)
    /\ currentColorByteOffset (gl loaded) = currentColorByteOffset (gl s).
Proof.
  intros Ha Hn Hmax Hbp Hbc [Htp Htc].
  pose proof (withinBuffers_holds s n Ha Hn Hmax) as Hin.
  destruct (offsets_in_floats s n Hn) as [Ep Ec].
  assert (Hlp : Z.of_nat (length (exportPositions s)) = 2 * n).
  { unfold exportPositions. rewrite length_firstn, Ep.
    destruct Ha as [Hp _], Hn as (Hn & _). unfold MAX_VERTICES in *. lia. }
  assert (Hlc : Z.of_nat (length (exportColors s)) = 3 * n).
  { unfold exportColors. rewrite length_firstn, Ec.
    destruct Ha as [_ Hc], Hn as (Hn & _). unfold MAX_VERTICES in *. lia. }
  rewrite (downloaded_arrays s Hin).
  set (P := exportPositions s) in *. set (C := exportColors s) in *.
  eexists _, _. split; [apply uploadDrawing_sequences|].
  unfold exportPositions, exportColors.
  cbn [gl currentCoordByteOffset currentColorByteOffset posBuffer colorBuffer].
  rewrite !Z.div_mul by discriminate. rewrite !Nat2Z.id.
  rewrite !json_number_there_and_back by assumption. rewrite !length_map.
  destruct Hn as (_ & Hoffp & Hoffc).
  split; [|split; [|split]].
  - rewrite <- (length_map zeroIfNotFinite P) at 1.
    apply written_from_zero. rewrite length_map.
    unfold MAX_VERTICES in *. lia.
  - rewrite <- (length_map zeroIfNotFinite C) at 1.
    apply written_from_zero. rewrite length_map.
    unfold MAX_VERTICES in *. lia.
  - rewrite Hlp, Hoffp. unfold BYTES_PER_ELEMENT. lia.
  - rewrite Hlc, Hoffc. unfold BYTES_PER_ELEMENT. lia.
Qed.

Lemma save_then_load_zeroes_non_finite_witness :
  let black := (Fin 0, Fin 0, Fin 0) in
  let s := handleAll [Click (mkCanvas 0 0) (mkClick 5 5)] (init "POINTS" black) in
  exportPositions s = [PosInf; NegInf]
  /\ exists loaded calls,
       uploadDrawing (fun _ => NaN) (snd (downloadDrawing s))
                     (init "POINTS" black)
       = Returned loaded calls
       /\ exportPositions loaded = [Fin 0; Fin 0].
Proof.
  intros black s.
  destruct (handleAll_allocated_holds
              [Click (mkCanvas 0 0) (mkClick 5 5)] (init "POINTS" black) 0
              (allocated_init _ _) (holdsVertices_init _ _)) as [Ha Hn].
  fold s in Ha, Hn. change (0 + clicks _) with 1 in Hn.
  assert (Hmax : 1 <= MAX_VERTICES) by discriminate.
  destruct (addVertex_exports (mkCanvas 0 0) (mkClick 5 5)
              (init "POINTS" black) 0
              (allocated_init _ _) (holdsVertices_init _ _) eq_refl)
    as [Hp Hc].
  destruct (exports_init "POINTS" black) as [Ep0 Ec0].
  rewrite Ep0 in Hp. rewrite Ec0 in Hc.
  assert (Es : exportPositions s = [PosInf; NegInf]) by exact Hp.
  assert (Hbp : allFloat32 (exportPositions s))
    by (rewrite Es; repeat constructor).
  assert (Hbc : allFloat32 (exportColors s))
    by (unfold s; cbn [handleAll fold_left handle]; rewrite Hc;
        apply converted_allFloat32).
  split; [exact Es|].
  destruct (save_then_load_zeroes_non_finite
              (fun _ => NaN) s (init "POINTS" black) 1 Ha Hn Hmax Hbp Hbc
              (allocated_init _ _))
    as (loaded & calls & Hload & Hexp & _).
  exists loaded, calls. split; [exact Hload|].
  rewrite Hexp, Es. reflexivity.
Defined.

(** ** Rendering a ledger that holds something else than runs *)

Lemma drawEach_app (h1 h2 : list entry) (start : option Z) :
  drawEach (h1 ++ h2) start
  = (fst (drawEach h1 start)
     ++ fst (drawEach h2 (snd (drawEach h1 start))),
     snd (drawEach h2 (snd (drawEach h1 start)))).
Proof.
  revert start. induction h1 as [|e h1 IH]; intros start.
  - cbn [app drawEach fst snd]. now destruct (drawEach h2 start).
  - cbn [app drawEach]. rewrite IH.
    destruct (drawEach h1 (addLength start (entry_vertLength e))).
    reflexivity.
Qed.

Lemma drawEach_from_NaN (h : list entry) :
  drawEach h None
  = (map (fun e => DrawArrays (entry_mode e) None (entry_vertLength e)) h,
     None).
Proof.
  induction h as [|e h IH]; [reflexivity|].
  cbn [drawEach map addLength]. now rewrite IH.
Qed.

Lemma drawEach_ends_as_NaN (before : list entry) (e : entry)
      (after : list entry) (start : option Z) :
  isRun e = false ->
  snd (drawEach (before ++ e :: after) start) = None.
Proof.
  intros He. rewrite drawEach_app. cbn [drawEach snd].
  assert (Elen : entry_vertLength e = None) by now destruct e.
  assert (Enan : forall x, addLength x None = None) by now intros [x|].
  rewrite Elen, Enan, drawEach_from_NaN. reflexivity.
Qed.

(** X13: when the ledger holds an entry that is no run record (an array
    left by a save), a render pass draws the entries before it as usual,
    makes for it a call without mode and without count, and starts the call
    of every later entry, runs included, at index NaN; the running index
    ends as NaN. *)
Theorem render_after_a_foreign_entry
        (before after : list entry) (e : entry) (start : option Z) :
  isRun e = false ->
  drawEach (before ++ e :: after) start
  = (fst (drawEach before start)
     ++ DrawArrays None (snd (drawEach before start)) None
     :: map (fun e' => DrawArrays (entry_mode e') None (entry_vertLength e'))
            after,
     None).
Proof.
  intros He. rewrite drawEach_app. cbn [drawEach].
  assert (Emode : entry_mode e = None) by now destruct e.
  assert (Elen : entry_vertLength e = None) by now destruct e.
  rewrite Emode, Elen.
  assert (Enan : forall x, addLength x None = None) by now intros [x|].
  rewrite Enan, drawEach_from_NaN. reflexivity.
Qed.

Lemma render_after_a_foreign_entry_witness :
  isRun (F32 []) = false
  /\ drawEach ([Run "POINTS" 2] ++ F32 [] :: [Run "LINES" 3]) (Some 0)
     = ([DrawArrays (Some "POINTS"%string) (Some 0) (Some 2);
         DrawArrays None (Some 2) None;
         DrawArrays (Some "LINES"%string) None (Some 3)],
        None).
Proof.
  split; [reflexivity|].
  exact (render_after_a_foreign_entry
           [Run "POINTS" 2] [Run "LINES" 3] (F32 []) (Some 0) eq_refl).
Defined.

(** ** The first save of a session *)





(** ** Saving twice, loading and saving *)

Lemma stringify_parse (file : list jsonEntry) :
  JSON_stringify (JSON_parse file) = file.
Proof.
  unfold JSON_stringify, JSON_parse. rewrite map_map.
  rewrite <- (map_id file) at 2. apply map_ext. now intros [m n|values].
Qed.

(** X14: two saves in a row put the arrays of the first save inside the
    second file, before its own two arrays.  Loading that file pops only
    the last two entries, so the loaded ledger ends with the two arrays of
    the first save (as plain objects), and the running index of the render
    pass of the load ends as NaN. *)
Theorem second_save_keeps_first_arrays
        (StringToNumber : string -> number) (s target : state) :
  withinBuffers s ->
  let positions := map numberToJSON (exportPositions s) in
  let colors := map numberToJSON (exportColors s) in
  let second := snd (downloadDrawing (fst (downloadDrawing s))) in
  second
  = JSON_stringify (drawingHistory s)
    ++ [JSeq positions; JSeq colors; JSeq positions; JSeq colors]
  /\ exists loaded calls,
       uploadDrawing StringToNumber second target = Returned loaded calls
       /\ drawingHistory loaded
          = JSON_parse (JSON_stringify (drawingHistory s))
            ++ [Seq positions; Seq colors]
       /\ snd (drawEach (drawingHistory loaded) (Some 0)) = None.
Proof.
  intros Hin positions colors second.
  assert (Esecond : second
                    = (JSON_stringify (drawingHistory s)
                       ++ [JSeq positions; JSeq colors])
                      ++ [JSeq positions; JSeq colors]).
  { unfold second.
    rewrite (downloaded_arrays _ (withinBuffers_download s Hin)).
    destruct (exports_download s) as [-> ->].
    rewrite (downloadDrawing_appends s Hin).
    unfold JSON_stringify. rewrite map_app. reflexivity. }
  split; [rewrite Esecond; now rewrite <- app_assoc|].
  rewrite Esecond.
  eexists _, _. split; [apply uploadDrawing_sequences|].
  cbn [drawingHistory].
  assert (Eparse : JSON_parse (JSON_stringify (drawingHistory s)
                               ++ [JSeq positions; JSeq colors])
                   = JSON_parse (JSON_stringify (drawingHistory s))
                     ++ [Seq positions; Seq colors])
    by (unfold JSON_parse; now rewrite map_app).
  rewrite Eparse. split; [reflexivity|].
  apply (drawEach_ends_as_NaN _ (Seq positions) [Seq colors]). reflexivity.
Qed.

Lemma second_save_keeps_first_arrays_witness :
  let s := handleAll [Click (mkCanvas 300 150) (mkClick 10 20)]
                     (init "POINTS" (Fin 0, Fin 0, Fin 0)) in
  withinBuffers s
  /\ exists loaded calls,
       uploadDrawing (fun _ => NaN)
                     (snd (downloadDrawing (fst (downloadDrawing s)))) s
       = Returned loaded calls
       /\ snd (drawEach (drawingHistory loaded) (Some 0)) = None.
Proof.
  intros s.
  destruct (one_click_session (mkCanvas 300 150) (mkClick 10 20))
    as (_ & _ & _ & Hin).
  fold s in Hin. split; [exact Hin|].
  destruct (second_save_keeps_first_arrays (fun _ => NaN) s s Hin)
    as (_ & loaded & calls & Hload & _ & Hnan).
  exists loaded, calls. exact (conj Hload Hnan).
Defined.

Lemma json_there_and_back (values : list (option Q)) :
  map numberToJSON (map jsonToNumber values) = map resaved values.
Proof.
  rewrite map_map. apply map_ext. intros [q|]; unfold jsonToNumber, resaved.
  - now destruct (toFloat32 (Fin q)).
  - now rewrite toFloat32_zero.
Qed.

Lemma resaved_float32 (values : list (option Q)) :
  Forall float32Element values -> map resaved values = values.
Proof.
  induction 1 as [|v values (q & -> & Hq) _ IH]; [reflexivity|].
  cbn [map resaved]. now rewrite Hq, IH.
Qed.

(** X15: loading a file whose two sequences fit in the buffers and saving
    at once writes the records again, in order and unchanged, whatever the
    lengths of the sequences, followed by the two sequences as the buffers
    of binary32 numbers hold them: every [null] is written as 0, every
    number as the binary32 number nearest to it, or as [null] when it is
    stored as an infinity.  A file whose sequences hold only binary32
    numbers is written again as it was. *)
Theorem load_then_save_reproduces_file
        (StringToNumber : string -> number)
        (records : list jsonEntry) (ps cs : list (option Q)) (s : state) :
  allocated s ->
  Z.of_nat (length ps) <= MAX_VERTICES * 2 ->
  Z.of_nat (length cs) <= MAX_VERTICES * 3 ->
  exists loaded calls,
    uploadDrawing StringToNumber (records ++ [JSeq ps; JSeq cs]) s
    = Returned loaded calls
    /\ snd (downloadDrawing loaded)
       = records ++ [JSeq (map resaved ps); JSeq (map resaved cs)]
    /\ (Forall float32Element ps -> Forall float32Element cs ->
        snd (downloadDrawing loaded) = records ++ [JSeq ps; JSeq cs]).
Proof.
  intros [Hp Hc] Hps Hcs.
  eexists _, _. split; [apply uploadDrawing_sequences|].
  set (loaded := mkState _ _).
  assert (Hoffp : Z.to_nat (currentCoordByteOffset (gl loaded)
                            / BYTES_PER_ELEMENT)
                  = length (map jsonToNumber ps)).
  { unfold loaded. cbn [gl currentCoordByteOffset].
    rewrite Z.div_mul by discriminate. now rewrite Nat2Z.id, length_map. }
  assert (Hoffc : Z.to_nat (currentColorByteOffset (gl loaded)
                            / BYTES_PER_ELEMENT)
                  = length (map jsonToNumber cs)).
  { unfold loaded. cbn [gl currentColorByteOffset].
    rewrite Z.div_mul by discriminate. now rewrite Nat2Z.id, length_map. }
  assert (Hin : withinBuffers loaded).
  { unfold withinBuffers. rewrite Hoffp, Hoffc.
    unfold loaded. cbn [gl posBuffer colorBuffer].
    rewrite !writeStore_length, !length_map. lia. }
  assert (Hfile : snd (downloadDrawing loaded)
                  = records ++ [JSeq (map resaved ps); JSeq (map resaved cs)]).
  { rewrite (downloaded_arrays loaded Hin).
    unfold exportPositions, exportColors. rewrite Hoffp, Hoffc.
    unfold loaded. cbn [gl posBuffer colorBuffer drawingHistory].
    rewrite !written_from_zero by (rewrite length_map; lia).
    now rewrite stringify_parse, !json_there_and_back. }
  split; [exact Hfile|].
  intros Hfp Hfc. rewrite Hfile.
  now rewrite (resaved_float32 ps Hfp), (resaved_float32 cs Hfc).
Qed.

Lemma load_then_save_reproduces_file_witness :
  let s := init "POINTS" (Fin 0, Fin 0, Fin 0) in
  let records := [JRun "LINES" 2] in
  let ps := [Some (1 # 10); None; Some (inject_Z (10 ^ 39)); Some (1 # 2)] in
  let cs := [Some 1%Q; Some (128 # 255); Some 0%Q] in
  exists loaded calls,
    uploadDrawing (fun _ => NaN) (records ++ [JSeq ps; JSeq cs]) s
    = Returned loaded calls
    /\ snd (downloadDrawing loaded)
       = [JRun "LINES" 2;
          JSeq [Some (13421773 # 134217728); Some 0%Q; None; Some (1 # 2)];
          JSeq [Some 1%Q; Some (8421505 # 16777216); Some 0%Q]].
Proof.
  intros s records ps cs.
  assert (Hps : Z.of_nat (length ps) <= MAX_VERTICES * 2) by discriminate.
  assert (Hcs : Z.of_nat (length cs) <= MAX_VERTICES * 3) by discriminate.
  destruct (load_then_save_reproduces_file
              (fun _ => NaN) records ps cs s (allocated_init _ _) Hps Hcs)
    as (loaded & calls & Hload & Hfile & _).
  exists loaded, calls. split; [exact Hload|].
  rewrite Hfile. vm_compute. reflexivity.
Defined.

(** ** Selecting a colour, then clicking *)

(** X16: after the colour input has been set to a string whose characters
    1 to 6 are digits of radix 16, a click in a state with room for one
    more vertex appends to the colour buffer the three two-digit values
    divided by 255, each converted to binary32 as [Float32Array.from] does,
    and leaves the colours of the earlier vertices as they were. *)
Theorem selected_colour_is_stored
        (this : Canvas) (e : MouseEvent) (s : state) (n : Z)
        (c0 c1 c2 c3 c4 c5 c6 : ascii) (rest : string)
        (d1 d2 d3 d4 d5 d6 : Z) :
  allocated s -> holdsVertices s n -> n < MAX_VERTICES ->
  hexDigitValue c1 = Some d1 -> hexDigitValue c2 = Some d2 ->
  hexDigitValue c3 = Some d3 -> hexDigitValue c4 = Some d4 ->
  hexDigitValue c5 = Some d5 -> hexDigitValue c6 = Some d6 ->
  let hexValue :=
    String c0 (String c1 (String c2 (String c3 (String c4
      (String c5 (String c6 rest)))))) in
  exportColors (fst (addVertex this e (changeColor hexValue s)))
  = exportColors s
    ++ [toFloat32 (Fin (inject_Z (16 * d1 + d2) / 255)%Q);
        toFloat32 (Fin (inject_Z (16 * d3 + d4) / 255)%Q);
        toFloat32 (Fin (inject_Z (16 * d5 + d6) / 255)%Q)].
Proof.
  intros Ha Hn Hmax H1 H2 H3 H4 H5 H6 hexValue.
  assert (Ha' : allocated (changeColor hexValue s)) by exact Ha.
  assert (Hn' : holdsVertices (changeColor hexValue s) n) by exact Hn.
  destruct (addVertex_exports this e (changeColor hexValue s) n Ha' Hn' Hmax)
    as [_ Ec].
  rewrite Ec.
  change (exportColors (changeColor hexValue s)) with (exportColors s).
  change (drawingColor (gl (changeColor hexValue s)))
    with (hexToRgb hexValue).
  unfold hexValue.
  now rewrite (hexToRgb_digits c0 c1 c2 c3 c4 c5 c6 rest
                               d1 d2 d3 d4 d5 d6 H1 H2 H3 H4 H5 H6).
Qed.

Lemma selected_colour_is_stored_witness :
  let s := init "POINTS" (Fin 0, Fin 0, Fin 0) in
  exportColors (fst (addVertex (mkCanvas 300 150) (mkClick 10 20)
                               (changeColor "#ff8000" s)))
  = [Fin 1; Fin (8421505 # 16777216); Fin 0].
Proof.
  intros s.
  assert (Hmax : 0 < MAX_VERTICES) by reflexivity.
  pose proof (selected_colour_is_stored
                (mkCanvas 300 150) (mkClick 10 20) s 0
                "#" "f" "f" "8" "0" "0" "0" EmptyString 15 15 8 0 0 0
                (allocated_init _ _) (holdsVertices_init _ _) Hmax
                eq_refl eq_refl eq_refl eq_refl eq_refl eq_refl) as H.
  destruct (exports_init "POINTS" (Fin 0, Fin 0, Fin 0)) as [_ Ec0].
  cbv zeta in H. fold s in Ec0. rewrite Ec0 in H.
  rewrite H. vm_compute. reflexivity.
Defined.

(** The colour components that [hexToRgb] gives on two digits, [n / 255]
    for [n] from 0 to 255, are converted to binary32 as IEEE 754 arithmetic
    converts them, the rounding of the binary64 division included. *)
Example binary64_agrees_on_colours :
  map (fun n => Binary64.value (Binary64.quotient n 255))
      (map Z.of_nat (seq 0 256))
  = map (fun n => toFloat32 (number_div (Fin (inject_Z n)) (Fin 255)))
        (map Z.of_nat (seq 0 256)).
Proof. vm_compute. reflexivity. Qed.
